(** * hardhat-yul: the compilation pipeline of [src/compilation.ts]

    A shallow embedding of the Yul / Yul+ compilation pipeline and the
    properties of its artifacts.  The pipeline is effectful: it writes to the
    console, calls a compiler and hands artifacts to Hardhat's artifact
    store, and any step may throw.  It is embedded in a state-and-exception
    monad over a [World] that records those effects; the collaborators
    outside the repository (file system, glob, yulp, the solc build task,
    the compilers) are the fields of an [Env]. *)

From Stdlib Require Import String Ascii List ZArith Bool Lia.
Import ListNotations.
Set Warnings "-register-all".
Local Open Scope Z_scope.
Local Open Scope list_scope.
Local Open Scope string_scope.

(** ** JavaScript strings

    The operations of [String.prototype] that the source uses, on
    [string]; indices are [Z], as the source passes negative ones. *)
Module Js.

(** [s.indexOf(pat)]: the first position at which [pat] occurs, or [-1]. *)
Definition indexOf (s pat : string) : Z :=
  match String.index 0 pat s with
  | Some n => Z.of_nat n
  | None => -1
  end.

(** [s.substring(start, end)]: both indices are clamped to [0, length],
    and swapped when [start > end]. *)
Definition substring (s : string) (start end_ : Z) : string :=
  let len := Z.of_nat (String.length s) in
  let a := Z.min (Z.max start 0) len in
  let b := Z.min (Z.max end_ 0) len in
  let lo := Z.min a b in
  let hi := Z.max a b in
  String.substring (Z.to_nat lo) (Z.to_nat (hi - lo)) s.

(** [s.slice(start, end)]: a negative index counts from the end of the
    string; the result is empty when the range is. *)
Definition slice (s : string) (start end_ : Z) : string :=
  let len := Z.of_nat (String.length s) in
  let from :=
    if (start <? 0)%Z then Z.max (len + start) 0 else Z.min start len in
  let to :=
    if (end_ <? 0)%Z then Z.max (len + end_) 0 else Z.min end_ len in
  String.substring (Z.to_nat from) (Z.to_nat (Z.max (to - from) 0)) s.

(** A value the pipeline only passes along ([any] in the source): the
    optimizer's [yulDetails], the backend's function debug data, yulp's
    parse results, and the object literal sent to the compiler.  An object
    is the list of its own properties in the order [Object.keys] lists
    them. *)
Inductive value : Type :=
| Undefined
| Null
| Bool (b : bool)
| Num (n : Z)
| Str (s : string)
| Arr (elems : list value)
| Obj (props : list (string * value)).

(** What a [throw] carries: the [TypeError] the language raises when a
    property of [undefined] is read or a non-iterable is iterated ([what]
    names the place), or the error of a collaborator, with its [name] and
    [message]. *)
Inductive error : Type :=
| TypeError (what : string)
| Thrown (name message : string).


End Js.

(** ** Node's [path.basename]

    The POSIX flavour: the scan runs from the last character to the first,
    skips the separators that end the path, and stops at the first
    separator after the last component. *)
Fixpoint basename_scan (rev_path : list ascii) (matchedSlash : bool)
    (component : list ascii) : list ascii :=
  match rev_path with
  | [] => component
  | c :: rest =>
      if Ascii.eqb c "/"%char then
        if matchedSlash then basename_scan rest true component
        else component
      else basename_scan rest false (c :: component)
  end.

Definition basename (path : string) : string :=
  string_of_list_ascii
    (basename_scan (rev (list_ascii_of_string path)) true []).

(** ** Contract names *)

(** [pathToContractName], compilation.ts:104-107. *)
Definition pathToContractName (file : string) : string :=
  let sourceName := basename file in
  Js.substring sourceName 0 (Js.indexOf sourceName ".").

(** The spec's wording of the same, "file basename without extension":
    the name up to, and without, its last dot; a name with no dot has no
    extension to lose. *)
Fixpoint has_dot (s : string) : bool :=
  match s with
  | EmptyString => false
  | String c rest => Ascii.eqb c "."%char || has_dot rest
  end.

Fixpoint without_extension (s : string) : string :=
  match s with
  | EmptyString => EmptyString
  | String c rest =>
      if Ascii.eqb c "."%char && negb (has_dot rest) then EmptyString
      else String c (without_extension rest)
  end.

Fixpoint count_dots (s : string) : nat :=
  match s with
  | EmptyString => O
  | String c rest =>
      ((if Ascii.eqb c "."%char then 1 else 0) + count_dots rest)%nat
  end.

(** The double quote, which frames yulp's raw signature text. *)
Definition dquote : string := String (ascii_of_nat 34) EmptyString.

(** ** Data model *)

(** An object used as a map, as the list of its properties in the order
    [Object.keys] lists them: property lookup [o[k]], [Object.keys(o)], and
    the lookup [o[ks[i]]] through an element of a key array, where a
    missing element is [undefined] and reads the property of that name. *)
Fixpoint lookup {A : Type} (k : string) (o : list (string * A)) : option A :=
  match o with
  | [] => None
  | (k', v) :: rest => if String.eqb k k' then Some v else lookup k rest
  end.

Definition keys {A : Type} (o : list (string * A)) : list string :=
  map fst o.

Definition lookup_key {A : Type} (o : list (string * A))
    (k : option string) : option A :=
  match k with
  | Some k => lookup k o
  | None => lookup "undefined" o
  end.

(** The backend's output, typed by Hardhat's [CompilerOutput]; a field is
    an [option] where the source tests it, reads it through [?.], or where
    the backend leaves it out ([errors] without diagnostics, [contracts]
    after a failed compilation). *)
Module Output.

Record Bytecode : Type := {
  object : string;
  functionDebugData : option Js.value
}.

Record Evm : Type := {
  bytecode : Bytecode;
  deployedBytecode : option Bytecode
}.

Record Contract : Type := {
  evm : option Evm
}.

Record Diagnostic : Type := {
  severity : string;
  formattedMessage : string
}.

Record t : Type := {
  errors : option (list Diagnostic);
  contracts : option (list (string * list (string * Contract)))
}.

End Output.

(** [YulConfig] of [./types]: the backend version and the optimizer's
    [yulDetails], which the pipeline forwards as they are. *)
Record YulConfig : Type := {
  version : string;
  yulDetails : Js.value
}.

Record ProjectPathsConfig : Type := {
  root : string;
  sources : string
}.

Record SolcBuild : Type := {
  isSolcJs : bool;
  compilerPath : string
}.

(** The two implementations of [ICompiler] that [getCompiler] builds. *)
Inductive ICompiler : Type :=
| Compiler (pathToSolcJs : string)
| NativeCompiler (pathToSolc : string).

(** What [yulp.compile] returns, as far as the pipeline reads it: the
    parse [results], and the declared signatures and topics, each with its
    raw text [abi]. *)
Module Yulp.

Record Fragment : Type := {
  abi : string
}.

Record Source : Type := {
  results : Js.value;
  signatures : list Fragment;
  topics : list Fragment
}.

End Yulp.

(** The object that [_compileYul] and [_compileYulp] return.  The second
    builds it without [functionDebugData], which then reads as
    [undefined]: [None]. *)
Module Compiled.

Record t : Type := {
  _format : string;
  sourceName : string;
  abi : list string;
  bytecode : string;
  deployedBytecode : string;
  functionDebugData : option Js.value
}.

End Compiled.

(** Hardhat's [Artifact]. *)
Module Artifact.

Record t : Type := {
  _format : string;
  contractName : string;
  sourceName : string;
  abi : list string;
  bytecode : string;
  deployedBytecode : string;
  linkReferences : list (string * Js.value);
  deployedLinkReferences : list (string * Js.value);
  functionDebugData : option Js.value
}.

End Artifact.

(** ** Effects *)

Inductive ConsoleLine : Type :=
| Log (text : string)
| Error (text : string)
| Warn (text : string).

(** What a run leaves behind: the console, the inputs each compiler was
    called with, the artifacts handed to [saveArtifactAndDebugFile], and
    the entries pushed by [addValidArtifacts]; all oldest first. *)
Record World : Type := {
  console : list ConsoleLine;
  compilations : list (ICompiler * Js.value);
  saved : list Artifact.t;
  validArtifacts : list (Artifact.t * list string)
}.

Definition empty_world : World :=
  {| console := []; compilations := []; saved := []; validArtifacts := [] |}.

Inductive Result (A : Type) : Type :=
| Ok (a : A)
| Throw (e : Js.error).
Arguments Ok {A} a.
Arguments Throw {A} e.

(** A computation that may change the world and may throw; what it did
    before throwing stays done. *)
Definition M (A : Type) : Type := World -> Result A * World.

Definition ret {A : Type} (a : A) : M A := fun w => (Ok a, w).

Definition throw {A : Type} (e : Js.error) : M A := fun w => (Throw e, w).

Definition bind {A B : Type} (m : M A) (k : A -> M B) : M B :=
  fun w =>
    match m w with
    | (Ok a, w') => k a w'
    | (Throw e, w') => (Throw e, w')
    end.

Declare Scope pipeline_scope.
Delimit Scope pipeline_scope with pipeline.
Notation "x <- m ;; k" := (bind m (fun x => k))
  (at level 61, m at next level, right associativity) : pipeline_scope.
Notation "m ;; k" := (bind m (fun _ => k))
  (at level 61, right associativity) : pipeline_scope.
Local Open Scope pipeline_scope.

(** The outcome of a call into a collaborator. *)
Definition lift {A : Type} (r : Result A) : M A := fun w => (r, w).

(** Reading through a value that may be [undefined]: a [TypeError] when
    it is. *)
Definition defined {A : Type} (what : string) (v : option A) : M A :=
  match v with
  | Some a => ret a
  | None => throw (Js.TypeError what)
  end.

(** The world after more has been recorded in it. *)
Definition logged (lines : list ConsoleLine) (w : World) : World :=
  {| console := console w ++ lines;
     compilations := compilations w;
     saved := saved w;
     validArtifacts := validArtifacts w |}.

Definition called (compiler : ICompiler) (input : Js.value) (w : World)
    : World :=
  {| console := console w;
     compilations := compilations w ++ [(compiler, input)];
     saved := saved w;
     validArtifacts := validArtifacts w |}.

Definition sunk (artifact : Artifact.t) (w : World) : World :=
  {| console := console w;
     compilations := compilations w;
     saved := saved w ++ [artifact];
     validArtifacts := validArtifacts w |}.

Definition registered (entries : list (Artifact.t * list string))
    (w : World) : World :=
  {| console := console w;
     compilations := compilations w;
     saved := saved w;
     validArtifacts := validArtifacts w ++ entries |}.

(** [console.log], [console.error] and [console.warn]. *)
Definition write (line : ConsoleLine) : M unit :=
  fun w => (Ok tt, logged [line] w).

(** [artifacts.saveArtifactAndDebugFile(artifact)]: the artifact sink. *)
Definition saveArtifactAndDebugFile (artifact : Artifact.t) : M unit :=
  fun w => (Ok tt, sunk artifact w).

(** [artifactsImpl.addValidArtifacts(validArtifacts)], which pushes every
    element of its argument. *)
Definition addValidArtifacts (entries : list (Artifact.t * list string))
    : M unit :=
  fun w => (Ok tt, registered entries w).

(** ** The collaborators outside the repository *)
Record Env : Type := {
  process_cwd : string;
  path_relative : string -> string -> string;
  path_join : list string -> string;
  glob_sync : string -> list string;
  readFileSync : string -> Result string;
  yulp_compile : string -> Result Yulp.Source;
  yulp_print : Js.value -> string;
  (* run(TASK_COMPILE_SOLIDITY_GET_SOLC_BUILD, { quiet, solcVersion }) *)
  run_get_solc_build : bool -> string -> Result SolcBuild;
  (* the compile method of Compiler and of NativeCompiler *)
  compiler_compile : ICompiler -> Js.value -> Result Output.t;
  localPathToSourceName : string -> string -> Result string
}.

(** ** The pipeline *)

Definition ESC : string := String (ascii_of_nat 27) EmptyString.
Definition LF : string := String (ascii_of_nat 10) EmptyString.

(** [s.replace(/\\/g, '/')]. *)
Fixpoint replace_backslashes (s : string) : string :=
  match s with
  | EmptyString => EmptyString
  | String c rest =>
      String (if Ascii.eqb c (ascii_of_nat 92) then "/"%char else c)
             (replace_backslashes rest)
  end.

(** [getArtifactFromYulOutput], compilation.ts:109-125. *)
Definition getArtifactFromYulOutput (sourceName : string)
    (output : Compiled.t) : Artifact.t :=
  let contractName := pathToContractName sourceName in
  {| Artifact._format := "hh-sol-artifact-1";
     Artifact.contractName := contractName;
     Artifact.sourceName := sourceName;
     Artifact.abi := [];
     Artifact.bytecode := Compiled.bytecode output;
     Artifact.deployedBytecode := Compiled.deployedBytecode output;
     Artifact.linkReferences := [];
     Artifact.deployedLinkReferences := [];
     Artifact.functionDebugData := Compiled.functionDebugData output |}.

(** One iteration of the loop of [checkCompilationErrors]. *)
Definition report (filename : string) (error : Output.Diagnostic)
    : ConsoleLine :=
  if negb (String.eqb (Output.severity error) "warning") then
    Error (ESC ++ "[31m"
           ++ "hardhat-yul: error compiling " ++ filename ++ ":" ++ LF
           ++ Output.formattedMessage error
           ++ ESC ++ "[0m")
  else
    Warn (ESC ++ "[33m"
          ++ "hardhat-yul: warning compiling " ++ filename ++ ":" ++ LF
          ++ Output.formattedMessage error
          ++ ESC ++ "[0m").

Fixpoint report_all (filename : string) (errors : list Output.Diagnostic)
    : M unit :=
  match errors with
  | [] => ret tt
  | error :: rest => write (report filename error) ;; report_all filename rest
  end.

(** [checkCompilationErrors], compilation.ts:127-138; [for ... of] over
    [undefined] throws. *)
Definition checkCompilationErrors (filename : string)
    (errors : option (list Output.Diagnostic)) : M unit :=
  errors <- defined "errors is not iterable" errors ;;
  report_all filename errors.

Section Pipeline.

Variable env : Env.

(** [getCompiler], compilation.ts:16-32. *)
Definition getCompiler (_yulConfig : YulConfig) : M ICompiler :=
  solcBuild <- lift (run_get_solc_build env true (version _yulConfig)) ;;
  ret (if isSolcJs solcBuild then Compiler (compilerPath solcBuild)
       else NativeCompiler (compilerPath solcBuild)).

(** [compiler.compile(input)]; the input is recorded. *)
Definition compile (compiler : ICompiler) (input : Js.value) : M Output.t :=
  fun w => (compiler_compile env compiler input, called compiler input w).

(** [_compileYul], compilation.ts:140-187. *)
Definition _compileYul (filepath filename : string) (_yulConfig : YulConfig)
    (compiler : ICompiler) : M Compiled.t :=
  data <- lift (readFileSync env filepath) ;;
  output <-
    compile compiler
      (Js.Obj
         [("language", Js.Str "Yul");
          ("sources",
           Js.Obj [("Target.yul", Js.Obj [("content", Js.Str data)])]);
          ("settings",
           Js.Obj
             [("outputSelection",
               Js.Obj
                 [("*",
                   Js.Obj [("*", Js.Arr [Js.Str "*"]);
                           ("", Js.Arr [Js.Str "*"])])]);
              ("optimizer",
               Js.Obj
                 [("enabled", Js.Bool true);
                  ("runs", Js.Num 0);
                  ("details",
                   Js.Obj [("yul", Js.Bool true);
                           ("yulDetails", yulDetails _yulConfig)])])])]) ;;
  checkCompilationErrors filename (Output.errors output) ;;
  contracts <- defined "output.contracts" (Output.contracts output) ;;
  target <- defined "Object.keys" (lookup "Target.yul" contracts) ;;
  let contractObjects := keys target in
  selected <- defined "evm" (lookup_key target (nth_error contractObjects 0)) ;;
  evm <- defined "bytecode" (Output.evm selected) ;;
  let bytecode := "0x" ++ Output.object (Output.bytecode evm) in
  let deployedBytecode :=
    match Output.deployedBytecode evm with
    | Some deployed => "0x" ++ Output.object deployed
    | None => "0x"
    end in
  ret {| Compiled._format := "hh-sol-artifact-1";
         Compiled.sourceName := filename;
         Compiled.abi := [];
         Compiled.bytecode := bytecode;
         Compiled.deployedBytecode := deployedBytecode;
         Compiled.functionDebugData :=
           match Output.evm selected with
           | Some evm =>
               match Output.deployedBytecode evm with
               | Some deployed => Output.functionDebugData deployed
               | None => None
               end
           | None => None
           end |}.

(** [_compileYulp], compilation.ts:189-237. *)
Definition _compileYulp (filepath filename : string) (_yulConfig : YulConfig)
    (compiler : ICompiler) : M Compiled.t :=
  data <- lift (readFileSync env filepath) ;;
  source <- lift (yulp_compile env data) ;;
  output <-
    compile compiler
      (Js.Obj
         [("language", Js.Str "Yul");
          ("sources",
           Js.Obj
             [("Target.yul",
               Js.Obj
                 [("content",
                   Js.Str (yulp_print env (Yulp.results source)))])]);
          ("settings",
           Js.Obj
             [("outputSelection",
               Js.Obj
                 [("*",
                   Js.Obj [("*", Js.Arr [Js.Str "*"]);
                           ("", Js.Arr [Js.Str "*"])])]);
              ("optimizer",
               Js.Obj
                 [("enabled", Js.Bool true);
                  ("runs", Js.Num 0);
                  ("details",
                   Js.Obj [("yul", Js.Bool true);
                           ("yulDetails", yulDetails _yulConfig)])])])]) ;;
  checkCompilationErrors filename (Output.errors output) ;;
  contracts <- defined "output.contracts" (Output.contracts output) ;;
  target <- defined "Object.keys" (lookup "Target.yul" contracts) ;;
  let contractObjects := keys target in
  selected <- defined "evm" (lookup_key target (nth_error contractObjects 0)) ;;
  evm <- defined "bytecode" (Output.evm selected) ;;
  let bytecode := "0x" ++ Output.object (Output.bytecode evm) in
  let deployedBytecode :=
    match Output.deployedBytecode evm with
    | Some deployed => "0x" ++ Output.object deployed
    | None => "0x"
    end in
  let abi :=
    (map (fun v => Js.slice (Yulp.abi v) 4 (-1)) (Yulp.signatures source)
     ++ map (fun v => Js.slice (Yulp.abi v) 6 (-1)) (Yulp.topics source))%list
  in
  let contractCompiled :=
    {| Compiled._format := "hh-sol-artifact-1";
       Compiled.sourceName := filename;
       Compiled.abi := abi;
       Compiled.bytecode := bytecode;
       Compiled.deployedBytecode := deployedBytecode;
       Compiled.functionDebugData := None |} in
  ret contractCompiled.

(** [getYulSources] and [getYulpSources], compilation.ts:90-102. *)
Definition getYulSources (paths : ProjectPathsConfig) : list string :=
  let yulFiles :=
    glob_sync env
      (replace_backslashes (path_join env [sources paths; "**"; "*.yul"])) in
  yulFiles.

Definition getYulpSources (paths : ProjectPathsConfig) : list string :=
  let yulpFiles :=
    glob_sync env
      (replace_backslashes (path_join env [sources paths; "**"; "*.yulp"])) in
  yulpFiles.

(** [for (const file of files)], around a body that pushes to the
    [allArtifacts] declared before the loop. *)
Fixpoint for_of
    (body : list (Artifact.t * list string) -> string
            -> M (list (Artifact.t * list string)))
    (allArtifacts : list (Artifact.t * list string)) (files : list string)
    : M unit :=
  match files with
  | [] => ret tt
  | file :: rest =>
      allArtifacts <- body allArtifacts file ;;
      for_of body allArtifacts rest
  end.

(** [compileYul], compilation.ts:34-60. *)
Definition compileYul (_yulConfig : YulConfig) (paths : ProjectPathsConfig)
    : M unit :=
  let files := getYulSources paths in
  for_of
    (fun allArtifacts file =>
       let cwdPath := path_relative env (process_cwd env) file in
       write (Log ("Compiling " ++ cwdPath ++ "...")) ;;
       compiler <- getCompiler _yulConfig ;;
       yulOutput <- _compileYul cwdPath file _yulConfig compiler ;;
       sourceName <- lift (localPathToSourceName env (root paths) file) ;;
       let artifact := getArtifactFromYulOutput sourceName yulOutput in
       saveArtifactAndDebugFile artifact ;;
       let allArtifacts :=
         (allArtifacts ++ [(artifact, [Artifact.contractName artifact])])%list
       in
       addValidArtifacts allArtifacts ;;
       ret allArtifacts)
    [] files.

(** [compileYulp], compilation.ts:62-88. *)
Definition compileYulp (_yulConfig : YulConfig) (paths : ProjectPathsConfig)
    : M unit :=
  let files := getYulpSources paths in
  for_of
    (fun allArtifacts file =>
       let cwdPath := path_relative env (process_cwd env) file in
       write (Log ("Compiling " ++ cwdPath ++ "...")) ;;
       compiler <- getCompiler _yulConfig ;;
       yulOutput <- _compileYulp cwdPath file _yulConfig compiler ;;
       sourceName <- lift (localPathToSourceName env (root paths) file) ;;
       let artifact := getArtifactFromYulOutput sourceName yulOutput in
       saveArtifactAndDebugFile artifact ;;
       let allArtifacts :=
         (allArtifacts ++ [(artifact, [Artifact.contractName artifact])])%list
       in
       addValidArtifacts allArtifacts ;;
       ret allArtifacts)
    [] files.

(** One iteration of either loop, compilation.ts:44-58 and 72-86: the two
    bodies differ in the function that compiles the file. *)
Definition compile_file
    (_compile : string -> string -> YulConfig -> ICompiler -> M Compiled.t)
    (_yulConfig : YulConfig) (paths : ProjectPathsConfig)
    (allArtifacts : list (Artifact.t * list string)) (file : string)
    : M (list (Artifact.t * list string)) :=
  let cwdPath := path_relative env (process_cwd env) file in
  write (Log ("Compiling " ++ cwdPath ++ "...")) ;;
  compiler <- getCompiler _yulConfig ;;
  yulOutput <- _compile cwdPath file _yulConfig compiler ;;
  sourceName <- lift (localPathToSourceName env (root paths) file) ;;
  let artifact := getArtifactFromYulOutput sourceName yulOutput in
  saveArtifactAndDebugFile artifact ;;
  let allArtifacts :=
    (allArtifacts ++ [(artifact, [Artifact.contractName artifact])])%list in
  addValidArtifacts allArtifacts ;;
  ret allArtifacts.

End Pipeline.

(** ** The specification's words, as definitions *)

(** Property read [v[k]] and [Object.keys(v)] on a passed-along value. *)
Definition get (v : Js.value) (k : string) : Js.value :=
  match v with
  | Js.Obj props =>
      match lookup k props with
      | Some x => x
      | None => Js.Undefined
      end
  | _ => Js.Undefined
  end.

Definition keys_of (v : Js.value) : list string :=
  match v with
  | Js.Obj props => keys props
  | _ => []
  end.

(** The compiler input descriptor of the specification (External
    interfaces), for a base-dialect [text] and the caller's [details]. *)
Definition compiler_input_descriptor (text : string) (details : Js.value)
    : Js.value :=
  Js.Obj
    [("language", Js.Str "Yul");
     ("sources", Js.Obj [("Target.yul", Js.Obj [("content", Js.Str text)])]);
     ("settings",
      Js.Obj
        [("outputSelection",
          Js.Obj
            [("*",
              Js.Obj [("*", Js.Arr [Js.Str "*"]); ("", Js.Arr [Js.Str "*"])])]);
         ("optimizer",
          Js.Obj
            [("enabled", Js.Bool true);
             ("runs", Js.Num 0);
             ("details",
              Js.Obj [("yul", Js.Bool true); ("yulDetails", details)])])])].

(** "The first contract object reported under the virtual filename". *)
Definition first_contract_object (output : Output.t)
    : option Output.Contract :=
  match Output.contracts output with
  | Some contracts =>
      match lookup "Target.yul" contracts with
      | Some ((_, contract) :: _) => Some contract
      | _ => None
      end
  | None => None
  end.

(** The backend reports the virtual filename with no contract object. *)
Definition no_contract_object (output : Output.t) : Prop :=
  exists contracts,
    Output.contracts output = Some contracts
    /\ lookup "Target.yul" contracts = Some [].

(** The selected object's runtime code, "if present, else the
    empty-payload form", and the function debug data the backend supplied
    with it. *)
Definition runtime_payload (e : Output.Evm) : string :=
  match Output.deployedBytecode e with
  | Some deployed => Output.object deployed
  | None => ""
  end.

Definition debug_data (e : Output.Evm) : option Js.value :=
  match Output.deployedBytecode e with
  | Some deployed => Output.functionDebugData deployed
  | None => None
  end.

(** The two dialects, and for each its entry point, its file-compiling
    function, its source files and the base-dialect text of a file: what
    was read, or what yulp prints for it. *)
Inductive Dialect : Type :=
| Yul
| Yulp.

Definition run (env : Env) (d : Dialect)
    : YulConfig -> ProjectPathsConfig -> M unit :=
  match d with
  | Yul => compileYul env
  | Yulp => compileYulp env
  end.

Definition compile_of (env : Env) (d : Dialect)
    : string -> string -> YulConfig -> ICompiler -> M Compiled.t :=
  match d with
  | Yul => _compileYul env
  | Yulp => _compileYulp env
  end.

Definition sources_of (env : Env) (d : Dialect)
    : ProjectPathsConfig -> list string :=
  match d with
  | Yul => getYulSources env
  | Yulp => getYulpSources env
  end.

Definition base_dialect_text (env : Env) (d : Dialect) (filepath : string)
    : Result string :=
  match d with
  | Yul => readFileSync env filepath
  | Yulp =>
      match readFileSync env filepath with
      | Ok data =>
          match yulp_compile env data with
          | Ok source => Ok (yulp_print env (Yulp.results source))
          | Throw e => Throw e
          end
      | Throw e => Throw e
      end
  end.

(** The compiler that [getCompiler] builds from a solc build. *)
Definition compiler_of (solcBuild : SolcBuild) : ICompiler :=
  if isSolcJs solcBuild then Compiler (compilerPath solcBuild)
  else NativeCompiler (compilerPath solcBuild).

(** The fixed part of every artifact record. *)
Definition artifact_shape (a : Artifact.t) : Prop :=
  Artifact._format a = "hh-sol-artifact-1"
  /\ Artifact.linkReferences a = []
  /\ Artifact.deployedLinkReferences a = [].

(** ** A project to run the pipeline on

    Three base-dialect and three sugared-dialect files under
    [/proj/contracts], listed in the sorted order in which glob returns
    them; the second sugared file does not parse, and yulp
    reports one signature and one topic for the others.  The backend
    answers every input with one warning, one error-severity diagnostic and
    one contract object that has runtime code and debug data; for the
    source text ["empty"] it reports no contract object. *)
Module Project.

Definition debug : Js.value :=
  Js.Obj [("@add_1", Js.Obj [("entryPoint", Js.Num 12)])].

Definition diagnostics : list Output.Diagnostic :=
  [ {| Output.severity := "warning";
       Output.formattedMessage := "Warning: Yul is still experimental." |};
    {| Output.severity := "error";
       Output.formattedMessage := "Error: unused." |} ].

Definition code : Output.Evm :=
  {| Output.bytecode :=
       {| Output.object := "600a600d"; Output.functionDebugData := None |};
     Output.deployedBytecode :=
       Some {| Output.object := "fe";
               Output.functionDebugData := Some debug |} |}.

Definition contract : Output.Contract := {| Output.evm := Some code |}.

Definition output : Output.t :=
  {| Output.errors := Some diagnostics;
     Output.contracts :=
       Some [("Target.yul",
              [("Foo", contract);
               ("Foo_deployed", {| Output.evm := None |})])] |}.

Definition output_without_objects : Output.t :=
  {| Output.errors := Some [];
     Output.contracts := Some [("Target.yul", [])] |}.

Definition source_of (data : string) : Yulp.Source :=
  {| Yulp.results := Js.Str data;
     Yulp.signatures :=
       [ {| Yulp.abi := "sig" ++ dquote ++ "function add()" ++ dquote |} ];
     Yulp.topics :=
       [ {| Yulp.abi :=
              "topic" ++ dquote ++ "event Log(uint256)" ++ dquote |} ] |}.

Definition env : Env :=
  {| process_cwd := "/proj";
     path_relative :=
       fun from to =>
         String.substring (String.length from + 1) (String.length to) to;
     path_join := String.concat "/";
     glob_sync :=
       fun pattern =>
         if String.eqb pattern "/proj/contracts/**/*.yul" then
           ["/proj/contracts/A.yul"; "/proj/contracts/Empty.yul";
            "/proj/contracts/Token.yul"]
         else if String.eqb pattern "/proj/contracts/**/*.yulp" then
           ["/proj/contracts/A.yulp"; "/proj/contracts/Bad.yulp";
            "/proj/contracts/C.yulp"]
         else [];
     readFileSync :=
       fun file =>
         if String.eqb file "contracts/Empty.yul" then Ok "empty"
         else if String.eqb file "contracts/Bad.yulp" then Ok "bad"
         else Ok "object";
     yulp_compile :=
       fun data =>
         if String.eqb data "bad" then Throw (Js.Thrown "Error" "Syntax error")
         else Ok (source_of data);
     yulp_print :=
       fun results =>
         match results with
         | Js.Str text => text
         | _ => ""
         end;
     run_get_solc_build :=
       fun _ _ => Ok {| isSolcJs := false; compilerPath := "/bin/solc" |};
     compiler_compile :=
       fun _ input =>
         match get (get (get input "sources") "Target.yul") "content" with
         | Js.Str "empty" => Ok output_without_objects
         | _ => Ok output
         end;
     localPathToSourceName :=
       fun root file =>
         Ok (String.substring (String.length root + 1) (String.length file)
               file) |}.

Definition config : YulConfig :=
  {| version := "0.8.17";
     yulDetails := Js.Obj [("stackAllocation", Js.Bool true)] |}.

Definition paths : ProjectPathsConfig :=
  {| root := "/proj"; sources := "/proj/contracts" |}.

End Project.

(** ** Further vocabulary of the properties *)

Definition is_slash (c : ascii) : bool := Ascii.eqb c "/"%char.

Fixpoint has_slash (s : string) : bool :=
  match s with
  | EmptyString => false
  | String c rest => Ascii.eqb c "/"%char || has_slash rest
  end.

Fixpoint has_backslash (s : string) : bool :=
  match s with
  | EmptyString => false
  | String c rest => Ascii.eqb c (ascii_of_nat 92) || has_backslash rest
  end.

(** The entry that an iteration pushes to [allArtifacts] for an artifact,
    and what the iterations that push [entries] one after the other hand
    to [addValidArtifacts], starting from the accumulator [acc]: each time
    the whole list so far. *)
Definition entry_of (a : Artifact.t) : Artifact.t * list string :=
  (a, [Artifact.contractName a]).

Fixpoint registrations (acc entries : list (Artifact.t * list string))
    : list (Artifact.t * list string) :=
  match entries with
  | [] => []
  | entry :: rest =>
      ((acc ++ [entry]) ++ registrations (acc ++ [entry]) rest)%list
  end.

(** A console line that reports a diagnostic, not one that announces a
    file. *)
Definition is_diagnostic (line : ConsoleLine) : Prop :=
  match line with
  | Log _ => False
  | Error _ | Warn _ => True
  end.

(** The separator of a Windows path. *)
Definition backslash : string := String (ascii_of_nat 92) EmptyString.

(** Raw signature and topic texts as yulp writes them: the declaration
    between double quotes, after [sig] or [topic]. *)
Definition framed_signature (text : string) : Yulp.Fragment :=
  {| Yulp.abi := "sig" ++ dquote ++ text ++ dquote |}.

Definition framed_topic (text : string) : Yulp.Fragment :=
  {| Yulp.abi := "topic" ++ dquote ++ text ++ dquote |}.

(** The project of [Project] with other sources: two base-dialect files of
    the same name in two directories, and one sugared-dialect file; all of
    them compile. *)
Module Library.

Definition env : Env :=
  {| process_cwd := process_cwd Project.env;
     path_relative := path_relative Project.env;
     path_join := path_join Project.env;
     glob_sync :=
       fun pattern =>
         if String.eqb pattern "/proj/contracts/**/*.yul" then
           ["/proj/contracts/A.yul"; "/proj/contracts/lib/A.yul"]
         else if String.eqb pattern "/proj/contracts/**/*.yulp" then
           ["/proj/contracts/T.yulp"]
         else [];
     readFileSync := readFileSync Project.env;
     yulp_compile := yulp_compile Project.env;
     yulp_print := yulp_print Project.env;
     run_get_solc_build := run_get_solc_build Project.env;
     compiler_compile := compiler_compile Project.env;
     localPathToSourceName :=
       fun root file =>
         if String.eqb file "/elsewhere/A.yul" then
           Throw (Js.Thrown "HardhatError" "HH1005: file outside the project")
         else localPathToSourceName Project.env root file |}.

(** The same with no solc build to be had, and with a backend that leaves
    [errors] out of its answer and [contracts] out of a failed one, beside
    a file that cannot be read. *)
Definition env_without_solc : Env :=
  {| process_cwd := process_cwd env;
     path_relative := path_relative env;
     path_join := path_join env;
     glob_sync := glob_sync env;
     readFileSync := readFileSync env;
     yulp_compile := yulp_compile env;
     yulp_print := yulp_print env;
     run_get_solc_build :=
       fun _ _ => Throw (Js.Thrown "HardhatError" "HH501: download failed");
     compiler_compile := compiler_compile env;
     localPathToSourceName := localPathToSourceName env |}.

(** The same on Windows, where [path.join] joins with backslashes and glob
    answers the pattern written with slashes. *)
Definition env_windows : Env :=
  {| process_cwd := process_cwd env;
     path_relative := path_relative env;
     path_join := String.concat backslash;
     glob_sync :=
       fun pattern =>
         if String.eqb pattern "C:/proj/contracts/**/*.yul" then
           ["C:/proj/contracts/A.yul"]
         else [];
     readFileSync := readFileSync env;
     yulp_compile := yulp_compile env;
     yulp_print := yulp_print env;
     run_get_solc_build := run_get_solc_build env;
     compiler_compile := compiler_compile env;
     localPathToSourceName := localPathToSourceName env |}.

Definition windows_paths : ProjectPathsConfig :=
  {| root := "C:" ++ backslash ++ "proj";
     sources := "C:" ++ backslash ++ "proj" ++ backslash ++ "contracts" |}.

Definition quiet_output : Output.t :=
  {| Output.errors := None;
     Output.contracts := Output.contracts Project.output |}.

Definition failed_output : Output.t :=
  {| Output.errors := Some Project.diagnostics;
     Output.contracts := None |}.

Definition env_quiet : Env :=
  {| process_cwd := process_cwd env;
     path_relative := path_relative env;
     path_join := path_join env;
     glob_sync := glob_sync env;
     readFileSync :=
       fun file =>
         if String.eqb file "contracts/Gone.yul" then
           Throw (Js.Thrown "Error" "ENOENT: no such file or directory")
         else readFileSync env file;
     yulp_compile := yulp_compile env;
     yulp_print := yulp_print env;
     run_get_solc_build := run_get_solc_build env;
     compiler_compile :=
       fun _ input =>
         match get (get (get input "sources") "Target.yul") "content" with
         | Js.Str "empty" => Ok failed_output
         | _ => Ok quiet_output
         end;
     localPathToSourceName := localPathToSourceName env |}.

End Library.

(** * Properties *)

(** ** The embedding on examples *)

Example basename_foo : basename "/home/u/proj/contracts/Foo.yul" = "Foo.yul".
Proof. reflexivity. Qed.

Example basename_trailing : basename "a/b//" = "b".
Proof. reflexivity. Qed.

Example name_foo : pathToContractName "contracts/Foo.yul" = "Foo".
Proof. reflexivity. Qed.

Example name_two_dots : pathToContractName "contracts/Foo.v2.yul" = "Foo".
Proof. reflexivity. Qed.

Example name_no_dot : pathToContractName "contracts/Makefile" = "".
Proof. reflexivity. Qed.

Example slice_sig :
  Js.slice ("sig" ++ dquote ++ "function add()" ++ dquote) 4 (-1)
  = "function add()".
Proof. reflexivity. Qed.

Example slice_topic :
  Js.slice ("topic" ++ dquote ++ "event Log(uint256)" ++ dquote) 6 (-1)
  = "event Log(uint256)".
Proof. reflexivity. Qed.

Example slice_short : Js.slice "sig" 4 (-1) = "".
Proof. reflexivity. Qed.

(** ** Strings *)

Lemma substring_0_0 (s : string) : String.substring 0 0 s = "".
Proof. destruct s; reflexivity. Qed.

Lemma substring_prefix (pre rest : string) :
  String.substring 0 (String.length pre) (pre ++ rest) = pre.
Proof.
  induction pre as [|c pre IH]; simpl.
  - apply substring_0_0.
  - now rewrite IH.
Qed.

Lemma length_append (a b : string) :
  String.length (a ++ b) = (String.length a + String.length b)%nat.
Proof. induction a as [|c a IH]; simpl; [reflexivity | now rewrite IH]. Qed.

Lemma prefix_dot (c : ascii) (s : string) :
  String.prefix "." (String c s) = Ascii.eqb c ".".
Proof.
  cbn [String.prefix]. destruct (ascii_dec "." c) as [<-|Hne].
  - now destruct s.
  - symmetry. apply Ascii.eqb_neq. congruence.
Qed.

Lemma index_no_dot (s : string) :
  has_dot s = false -> String.index 0 "." s = None.
Proof.
  induction s as [|c s IH]; intros H.
  - reflexivity.
  - cbn [has_dot] in H. apply orb_false_iff in H as [Hc Hs].
    cbn [String.index]. rewrite prefix_dot, Hc, (IH Hs). reflexivity.
Qed.

Lemma index_first_dot (pre rest : string) :
  has_dot pre = false ->
  String.index 0 "." (pre ++ String "." rest) = Some (String.length pre).
Proof.
  induction pre as [|c pre IH]; intros H.
  - cbn [append String.index]. now rewrite prefix_dot.
  - cbn [has_dot] in H. apply orb_false_iff in H as [Hc Hs].
    cbn [append String.index]. rewrite prefix_dot, Hc, (IH Hs). reflexivity.
Qed.

(** The name that [pathToContractName] cuts out of a basename. *)
Lemma truncate_at_first_dot (pre rest : string) :
  has_dot pre = false ->
  Js.substring (pre ++ String "." rest) 0
    (Js.indexOf (pre ++ String "." rest) ".") = pre.
Proof.
  intros H. unfold Js.substring, Js.indexOf.
  rewrite (index_first_dot pre rest H), length_append. cbn [String.length].
  set (n := String.length pre). set (m := (n + S (String.length rest))%nat).
  assert (Hnm : (n <= m)%nat) by (subst m; lia).
  replace (Z.max 0 0) with 0 by reflexivity.
  replace (Z.max (Z.of_nat n) 0) with (Z.of_nat n) by lia.
  replace (Z.min 0 (Z.of_nat m)) with 0 by lia.
  replace (Z.min (Z.of_nat n) (Z.of_nat m)) with (Z.of_nat n) by lia.
  replace (Z.min 0 (Z.of_nat n)) with 0 by lia.
  replace (Z.max 0 (Z.of_nat n)) with (Z.of_nat n) by lia.
  rewrite Z.sub_0_r, Nat2Z.id. apply substring_prefix.
Qed.

Lemma truncate_no_dot (s : string) :
  has_dot s = false -> Js.substring s 0 (Js.indexOf s ".") = "".
Proof.
  intros H. unfold Js.substring, Js.indexOf. rewrite (index_no_dot s H).
  set (m := String.length s).
  replace (Z.max 0 0) with 0 by reflexivity.
  replace (Z.max (-1) 0) with 0 by reflexivity.
  replace (Z.min 0 (Z.of_nat m)) with 0 by lia.
  apply substring_0_0.
Qed.

Lemma one_dot_split (s : string) :
  count_dots s = 1%nat ->
  exists pre rest,
    s = pre ++ String "." rest /\ has_dot pre = false /\ has_dot rest = false.
Proof.
  induction s as [|c s IH]; intros H; [discriminate|].
  cbn [count_dots] in H. destruct (Ascii.eqb_spec c ".") as [->|Hne].
  - exists "", s. repeat split.
    assert (Hz : count_dots s = 0%nat) by lia.
    clear -Hz. induction s as [|d s IH]; [reflexivity|].
    cbn [count_dots] in Hz. cbn [has_dot].
    destruct (Ascii.eqb d "."); [discriminate|]. apply IH. exact Hz.
  - destruct (IH H) as (pre & rest & -> & Hp & Hr).
    exists (String c pre), rest. repeat split; [|exact Hr].
    cbn [has_dot]. apply Ascii.eqb_neq in Hne. now rewrite Hne, Hp.
Qed.

Lemma has_dot_append (a b : string) :
  has_dot (a ++ b) = has_dot a || has_dot b.
Proof.
  induction a as [|c a IH]; [reflexivity|].
  cbn [append has_dot]. now rewrite IH, orb_assoc.
Qed.

Lemma without_extension_one_dot (pre rest : string) :
  has_dot pre = false -> has_dot rest = false ->
  without_extension (pre ++ String "." rest) = pre.
Proof.
  intros Hp Hr. induction pre as [|c pre IH].
  - cbn. now rewrite Hr.
  - cbn [has_dot] in Hp. apply orb_false_iff in Hp as [Hc Hp].
    cbn [append without_extension]. now rewrite Hc, (IH Hp).
Qed.

Lemma substring_skip (pre s : string) (m : nat) :
  String.substring (String.length pre) m (pre ++ s) = String.substring 0 m s.
Proof. induction pre as [|c pre IH]; [reflexivity | exact IH]. Qed.

(** [slice(n, -1)] takes off the first [n] characters and the last one. *)
Lemma slice_strips_framing (pre mid post : string) :
  String.length post = 1%nat ->
  Js.slice (pre ++ mid ++ post) (Z.of_nat (String.length pre)) (-1) = mid.
Proof.
  intros Hpost. unfold Js.slice. rewrite !length_append, Hpost.
  set (n := String.length pre). set (m := String.length mid).
  replace (Z.of_nat n <? 0)%Z with false by (symmetry; apply Z.ltb_ge; lia).
  replace (-1 <? 0)%Z with true by reflexivity.
  replace (Z.min (Z.of_nat n) (Z.of_nat (n + (m + 1)))) with (Z.of_nat n)
    by lia.
  replace (Z.max (Z.of_nat (n + (m + 1)) + -1) 0) with (Z.of_nat (n + m))
    by lia.
  replace (Z.max (Z.of_nat (n + m) - Z.of_nat n) 0) with (Z.of_nat m) by lia.
  rewrite !Nat2Z.id. subst n m. rewrite substring_skip.
  apply substring_prefix.
Qed.

Lemma list_ascii_of_append (a b : string) :
  list_ascii_of_string (a ++ b)
  = (list_ascii_of_string a ++ list_ascii_of_string b)%list.
Proof. induction a as [|c a IH]; simpl; [reflexivity | now rewrite IH]. Qed.

Lemma basename_in_contracts (dir : string) :
  basename (dir ++ "contracts/Foo.yul") = "Foo.yul".
Proof.
  unfold basename. rewrite list_ascii_of_append, rev_app_distr. reflexivity.
Qed.

(** ** Contract names *)

(** C10: the contract name stops at the first dot of the basename, not at
    the last.  A basename [pre ++ "." ++ rest] in which [pre] holds no dot
    gives the name [pre], whatever dots follow in [rest] (so ["Foo.v2.yul"]
    gives ["Foo"], not ["Foo.v2"]); a basename with no dot at all gives the
    empty name. *)
Theorem C10_name_stops_at_first_dot (file : string) :
  (forall pre rest,
      basename file = pre ++ String "." rest ->
      has_dot pre = false ->
      pathToContractName file = pre)
  /\ (has_dot (basename file) = false -> pathToContractName file = "").
Proof.
  unfold pathToContractName. split.
  - intros pre rest -> Hpre. now apply truncate_at_first_dot.
  - apply truncate_no_dot.
Qed.

Lemma C10_name_stops_at_first_dot_witness :
  pathToContractName "/proj/contracts/Foo.v2.yul" = "Foo"
  /\ pathToContractName "/proj/contracts/Makefile" = "".
Proof.
  split.
  - apply (proj1 (C10_name_stops_at_first_dot "/proj/contracts/Foo.v2.yul")
             "Foo" "v2.yul"); reflexivity.
  - apply (proj2 (C10_name_stops_at_first_dot "/proj/contracts/Makefile"));
      reflexivity.
Defined.

(** C6 as the specification words it, "the file's basename without its
    extension", fails where the basename holds two dots: the name of
    [contracts/Foo.v2.yul] is ["Foo"], its basename without the extension
    is ["Foo.v2"]. *)
Lemma C6_counterexample :
  pathToContractName "contracts/Foo.v2.yul" = "Foo"
  /\ without_extension (basename "contracts/Foo.v2.yul") = "Foo.v2"
  /\ pathToContractName "contracts/Foo.v2.yul"
     <> without_extension (basename "contracts/Foo.v2.yul").
Proof. repeat split. vm_compute. discriminate. Qed.

(** C6, amended: for a source file whose basename holds exactly one dot the
    contract name is the basename without its extension; a path that ends
    in [contracts/Foo.yul] is named ["Foo"]; and the name in the artifact
    is computed from the source name alone, whatever was compiled. *)
Theorem C6_contract_name_of_basename (file : string) :
  (count_dots (basename file) = 1%nat ->
   pathToContractName file = without_extension (basename file))
  /\ (forall dir, pathToContractName (dir ++ "contracts/Foo.yul") = "Foo")
  /\ (forall output output',
         Artifact.contractName (getArtifactFromYulOutput file output)
         = pathToContractName file
         /\ Artifact.contractName (getArtifactFromYulOutput file output')
            = Artifact.contractName (getArtifactFromYulOutput file output)).
Proof.
  repeat split.
  - intros H. destruct (one_dot_split _ H) as (pre & rest & E & Hp & Hr).
    unfold pathToContractName. rewrite E.
    now rewrite truncate_at_first_dot, without_extension_one_dot.
  - intros dir. unfold pathToContractName.
    rewrite basename_in_contracts. reflexivity.
Qed.

Lemma C6_contract_name_of_basename_witness :
  pathToContractName "/proj/contracts/Foo.yul"
  = without_extension (basename "/proj/contracts/Foo.yul").
Proof.
  apply (proj1 (C6_contract_name_of_basename "/proj/contracts/Foo.yul")).
  reflexivity.
Defined.

(** ** Effects of the pipeline's steps *)

Lemma report_all_run (filename : string) (errors : list Output.Diagnostic)
    (w : World) :
  report_all filename errors w
  = (Ok tt, logged (map (report filename) errors) w).
Proof.
  revert w. induction errors as [|error rest IH]; intros w.
  - cbn. unfold ret, logged. rewrite app_nil_r. now destruct w.
  - cbn [report_all map]. unfold bind, write. rewrite IH.
    unfold logged. cbn. now rewrite <- app_assoc.
Qed.

Lemma lookup_first_key {A : Type} (target : list (string * A)) :
  lookup_key target (nth_error (keys target) 0)
  = match target with
    | (_, contract) :: _ => Some contract
    | [] => None
    end.
Proof.
  destruct target as [|[name contract] rest]; [reflexivity|].
  cbn. now rewrite String.eqb_refl.
Qed.

Ltac unfold_steps :=
  unfold checkCompilationErrors, compile, getCompiler, bind, lift, defined,
    ret, throw, write, saveArtifactAndDebugFile, addValidArtifacts.

(** Case analysis on the innermost outcome the goal still branches on. *)
Ltac case_outcome :=
  match goal with
  | |- context [report_all ?f ?ds ?w] => rewrite (report_all_run f ds w)
  | |- context [match ?x with _ => _ end] =>
      lazymatch x with
      | context [match _ with _ => _ end] => fail
      | _ => destruct x eqn:?
      end
  end.

Section Steps.

Variable env : Env.

(** Neither compiling function touches the sink or the list of valid
    artifacts, whether it returns or throws. *)
Lemma _compileYul_keeps_sink filepath filename cfg compiler w :
  saved (snd (_compileYul env filepath filename cfg compiler w)) = saved w
  /\ validArtifacts (snd (_compileYul env filepath filename cfg compiler w))
     = validArtifacts w.
Proof.
  unfold _compileYul. unfold_steps.
  repeat case_outcome; split; reflexivity.
Qed.

Lemma _compileYulp_keeps_sink filepath filename cfg compiler w :
  saved (snd (_compileYulp env filepath filename cfg compiler w)) = saved w
  /\ validArtifacts (snd (_compileYulp env filepath filename cfg compiler w))
     = validArtifacts w.
Proof.
  unfold _compileYulp. unfold_steps.
  repeat case_outcome; split; reflexivity.
Qed.

(** What a compiling function returns or throws is decided by the
    collaborators, not by what the world has recorded so far. *)
Lemma _compileYul_result_independent filepath filename cfg compiler w w' :
  fst (_compileYul env filepath filename cfg compiler w)
  = fst (_compileYul env filepath filename cfg compiler w').
Proof.
  unfold _compileYul. unfold_steps. repeat case_outcome; reflexivity.
Qed.

Lemma _compileYulp_result_independent filepath filename cfg compiler w w' :
  fst (_compileYulp env filepath filename cfg compiler w)
  = fst (_compileYulp env filepath filename cfg compiler w').
Proof.
  unfold _compileYulp. unfold_steps. repeat case_outcome; reflexivity.
Qed.

End Steps.

Section Compiling.

Variable env : Env.

(** What a compiling function does once the base-dialect text is there:
    one call to the compiler, then the diagnostics, then the selection of
    the first contract object. *)
Lemma compile_of_outcome d filepath filename cfg compiler w text :
  base_dialect_text env d filepath = Ok text ->
  let input := compiler_input_descriptor text (yulDetails cfg) in
  let w1 := called compiler input w in
  match compiler_compile env compiler input with
  | Throw e => compile_of env d filepath filename cfg compiler w = (Throw e, w1)
  | Ok output =>
      match Output.errors output with
      | None =>
          compile_of env d filepath filename cfg compiler w
          = (Throw (Js.TypeError "errors is not iterable"), w1)
      | Some ds =>
          let w2 := logged (map (report filename) ds) w1 in
          match first_contract_object output with
          | Some contract =>
              match Output.evm contract with
              | Some e =>
                  exists out,
                    compile_of env d filepath filename cfg compiler w
                    = (Ok out, w2)
                    /\ Compiled.bytecode out
                       = "0x" ++ Output.object (Output.bytecode e)
                    /\ Compiled.deployedBytecode out
                       = "0x" ++ runtime_payload e
                    /\ Compiled.functionDebugData out
                       = match d with
                         | Yul => debug_data e
                         | Yulp => None
                         end
              | None =>
                  compile_of env d filepath filename cfg compiler w
                  = (Throw (Js.TypeError "bytecode"), w2)
              end
          | None =>
              exists what,
                compile_of env d filepath filename cfg compiler w
                = (Throw (Js.TypeError what), w2)
          end
      end
  end.
Proof.
  intros Htext input w1. unfold first_contract_object.
  destruct d; cbn [base_dialect_text compile_of] in *.
  - unfold _compileYul. unfold_steps. rewrite Htext.
    fold (compiler_input_descriptor text (yulDetails cfg)). fold input.
    cbn [fst snd]. fold w1.
    destruct (compiler_compile env compiler input) as [output|e];
      [|reflexivity].
    destruct (Output.errors output) as [ds|]; [|reflexivity].
    rewrite report_all_run.
    destruct (Output.contracts output) as [contracts|];
      [|eexists; reflexivity].
    destruct (lookup "Target.yul" contracts) as [target|];
      [|eexists; reflexivity].
    rewrite lookup_first_key.
    destruct target as [|[name contract] rest]; [eexists; reflexivity|].
    destruct (Output.evm contract) as [e|] eqn:He; [|reflexivity].
    eexists. split; [reflexivity|]. cbn. unfold runtime_payload, debug_data.
    destruct (Output.deployedBytecode e); repeat split.
  - unfold _compileYulp. unfold_steps.
    destruct (readFileSync env filepath) as [data|]; [|discriminate].
    destruct (yulp_compile env data) as [source|]; [|discriminate].
    injection Htext as <-.
    fold (compiler_input_descriptor (yulp_print env (Yulp.results source))
            (yulDetails cfg)).
    fold input. cbn [fst snd]. fold w1.
    destruct (compiler_compile env compiler input) as [output|e];
      [|reflexivity].
    destruct (Output.errors output) as [ds|]; [|reflexivity].
    rewrite report_all_run.
    destruct (Output.contracts output) as [contracts|];
      [|eexists; reflexivity].
    destruct (lookup "Target.yul" contracts) as [target|];
      [|eexists; reflexivity].
    rewrite lookup_first_key.
    destruct target as [|[name contract] rest]; [eexists; reflexivity|].
    destruct (Output.evm contract) as [e|] eqn:He; [|reflexivity].
    eexists. split; [reflexivity|]. cbn. unfold runtime_payload.
    destruct (Output.deployedBytecode e); repeat split.
Qed.

Lemma compile_of_without_text d filepath filename cfg compiler w e :
  base_dialect_text env d filepath = Throw e ->
  compile_of env d filepath filename cfg compiler w = (Throw e, w).
Proof.
  intros Htext. destruct d; cbn [base_dialect_text compile_of] in *.
  - unfold _compileYul. unfold_steps. now rewrite Htext.
  - unfold _compileYulp. unfold_steps.
    destruct (readFileSync env filepath) as [data|].
    + destruct (yulp_compile env data); [discriminate|]. congruence.
    + congruence.
Qed.

Lemma first_of_no_contract_object output :
  no_contract_object output -> first_contract_object output = None.
Proof.
  intros (contracts & Hc & Ht). unfold first_contract_object.
  now rewrite Hc, Ht.
Qed.


(** Whatever a compiling function returns was read off the first contract
    object of the backend's answer to the one input it sent. *)
Lemma compile_of_inversion d filepath filename cfg compiler w out w' :
  compile_of env d filepath filename cfg compiler w = (Ok out, w') ->
  exists text output ds contract e,
    base_dialect_text env d filepath = Ok text
    /\ compiler_compile env compiler
         (compiler_input_descriptor text (yulDetails cfg)) = Ok output
    /\ Output.errors output = Some ds
    /\ first_contract_object output = Some contract
    /\ Output.evm contract = Some e
    /\ w' = logged (map (report filename) ds)
              (called compiler
                 (compiler_input_descriptor text (yulDetails cfg)) w)
    /\ Compiled.bytecode out = "0x" ++ Output.object (Output.bytecode e)
    /\ Compiled.deployedBytecode out = "0x" ++ runtime_payload e
    /\ Compiled.functionDebugData out
       = match d with
         | Yul => debug_data e
         | Yulp => None
         end.
Proof.
  intros Hrun.
  destruct (base_dialect_text env d filepath) as [text|e0] eqn:Htext.
  2:{ rewrite (compile_of_without_text _ _ filename cfg compiler w _ Htext)
        in Hrun. discriminate. }
  pose proof (compile_of_outcome d filepath filename cfg compiler w text Htext)
    as H. cbv zeta in H.
  destruct (compiler_compile env compiler
              (compiler_input_descriptor text (yulDetails cfg)))
    as [output|] eqn:Hout; [|congruence].
  destruct (Output.errors output) as [ds|] eqn:Hds; [|congruence].
  destruct (first_contract_object output) as [contract|] eqn:Hfirst.
  2:{ destruct H as (what & H). congruence. }
  destruct (Output.evm contract) as [e|] eqn:He; [|congruence].
  destruct H as (out' & Hrun' & Hb & Hd & Hf).
  rewrite Hrun in Hrun'. injection Hrun' as -> ->.
  exists text, output, ds, contract, e. repeat split; assumption.
Qed.

Lemma compile_of_keeps_sink d filepath filename cfg compiler w :
  saved (snd (compile_of env d filepath filename cfg compiler w)) = saved w.
Proof.
  destruct d; cbn [compile_of].
  - apply _compileYul_keeps_sink.
  - apply _compileYulp_keeps_sink.
Qed.

(** One iteration of the loop, step by step. *)
Lemma compile_file_outcome _compile cfg paths acc file w :
  let cwdPath := path_relative env (process_cwd env) file in
  let w0 := logged [Log ("Compiling " ++ cwdPath ++ "...")] w in
  compile_file env _compile cfg paths acc file w
  = match run_get_solc_build env true (version cfg) with
    | Throw e => (Throw e, w0)
    | Ok solcBuild =>
        match _compile cwdPath file cfg (compiler_of solcBuild) w0 with
        | (Throw e, w1) => (Throw e, w1)
        | (Ok out, w1) =>
            match localPathToSourceName env (root paths) file with
            | Throw e => (Throw e, w1)
            | Ok sourceName =>
                let a := getArtifactFromYulOutput sourceName out in
                let acc' := (acc ++ [(a, [Artifact.contractName a])])%list in
                (Ok acc', registered acc' (sunk a w1))
            end
        end
    end.
Proof.
  intros cwdPath w0. unfold compile_file. unfold_steps. fold cwdPath w0.
  destruct (run_get_solc_build env true (version cfg)) as [solcBuild|];
    [|reflexivity].
  fold (compiler_of solcBuild).
  destruct (_compile cwdPath file cfg (compiler_of solcBuild) w0)
    as [[out|] w1]; [|reflexivity].
  destruct (localPathToSourceName env (root paths) file); reflexivity.
Qed.

(** An iteration hands exactly one artifact to the sink when it completes,
    and none when it throws. *)
Lemma compile_file_sink d cfg paths acc file w :
  match compile_file env (compile_of env d) cfg paths acc file w with
  | (Ok _, w') =>
      exists sourceName out filepath compiler w0 w1,
        compile_of env d filepath file cfg compiler w0 = (Ok out, w1)
        /\ localPathToSourceName env (root paths) file = Ok sourceName
        /\ saved w'
           = (saved w ++ [getArtifactFromYulOutput sourceName out])%list
  | (Throw _, w') => saved w' = saved w
  end.
Proof.
  rewrite compile_file_outcome. cbv zeta.
  destruct (run_get_solc_build env true (version cfg)) as [solcBuild|];
    [|reflexivity].
  set (cwdPath := path_relative env (process_cwd env) file).
  set (w0 := logged _ w).
  pose proof (compile_of_keeps_sink d cwdPath file cfg (compiler_of solcBuild)
                w0) as Hkeep.
  destruct (compile_of env d cwdPath file cfg (compiler_of solcBuild) w0)
    as [[out|] w1] eqn:Hrun; cbn [snd] in Hkeep; [|exact Hkeep].
  destruct (localPathToSourceName env (root paths) file) as [sourceName|]
    eqn:Hname; [|exact Hkeep].
  exists sourceName, out, cwdPath, (compiler_of solcBuild), w0, w1.
  repeat split; [exact Hrun|]. cbn. now rewrite Hkeep.
Qed.

(** A file that fails to compile fails whatever came before it. *)
Lemma compile_file_fails_always d cfg paths acc acc' file w w' e :
  fst (compile_file env (compile_of env d) cfg paths acc file w) = Throw e ->
  fst (compile_file env (compile_of env d) cfg paths acc' file w') = Throw e.
Proof.
  rewrite !compile_file_outcome. cbv zeta.
  destruct (run_get_solc_build env true (version cfg)) as [solcBuild|];
    [|exact (fun H => H)].
  set (cwdPath := path_relative env (process_cwd env) file).
  assert (Hsame :
    fst (compile_of env d cwdPath file cfg (compiler_of solcBuild)
           (logged [Log ("Compiling " ++ cwdPath ++ "...")] w))
    = fst (compile_of env d cwdPath file cfg (compiler_of solcBuild)
             (logged [Log ("Compiling " ++ cwdPath ++ "...")] w'))).
  { destruct d; cbn [compile_of].
    - apply _compileYul_result_independent.
    - apply _compileYulp_result_independent. }
  destruct (compile_of env d cwdPath file cfg (compiler_of solcBuild)
              (logged [Log ("Compiling " ++ cwdPath ++ "...")] w))
    as [[out|e1] w1];
  destruct (compile_of env d cwdPath file cfg (compiler_of solcBuild)
              (logged [Log ("Compiling " ++ cwdPath ++ "...")] w'))
    as [[out'|e2] w2]; cbn [fst] in Hsame; try discriminate.
  - destruct (localPathToSourceName env (root paths) file);
      [discriminate | exact (fun H => H)].
  - injection Hsame as <-. exact (fun H => H).
Qed.

End Compiling.

(** ** The loop *)

Section Loop.

Variable body :
  list (Artifact.t * list string) -> string
  -> M (list (Artifact.t * list string)).

(** The sink grows by one artifact for every iteration that completes. *)
Lemma for_of_sink (P : Artifact.t -> Prop) :
  (forall acc file w,
      match body acc file w with
      | (Ok _, w') => exists a, saved w' = (saved w ++ [a])%list /\ P a
      | (Throw _, w') => saved w' = saved w
      end) ->
  forall files acc w,
  exists new,
    saved (snd (for_of body acc files w)) = (saved w ++ new)%list
    /\ Forall P new
    /\ (length new <= length files)%nat
    /\ (fst (for_of body acc files w) = Ok tt -> length new = length files).
Proof.
  intros Hbody. induction files as [|file rest IH]; intros acc w.
  - exists []. cbn. rewrite app_nil_r. repeat split; auto.
  - cbn [for_of]. unfold bind. specialize (Hbody acc file w).
    destruct (body acc file w) as [[acc'|e] w1].
    + destruct Hbody as (a & Hsaved & Ha).
      destruct (IH acc' w1) as (new & Hnew & HP & Hle & Hlen).
      exists (a :: new). rewrite Hnew, Hsaved, <- app_assoc.
      repeat split; auto; cbn; [lia|]. intros H. now rewrite Hlen.
    + exists []. cbn. rewrite app_nil_r. repeat split; auto; [lia|].
      discriminate.
Qed.

(** A throw in one iteration ends the loop: the files after it are not
    looked at. *)
Lemma for_of_aborts (file : string) (e : Js.error) (post : list string) :
  (forall acc w, exists w', body acc file w = (Throw e, w')
                            /\ saved w' = saved w) ->
  forall pre acc w w1,
    for_of body acc pre w = (Ok tt, w1) ->
    exists w',
      for_of body acc (pre ++ file :: post) w = (Throw e, w')
      /\ saved w' = saved w1.
Proof.
  intros Hfail. induction pre as [|first pre IH]; intros acc w w1 Hpre.
  - cbn in Hpre. injection Hpre as <-. cbn [app for_of]. unfold bind.
    destruct (Hfail acc w) as (w' & -> & Hsaved). now exists w'.
  - cbn [app for_of] in *. unfold bind in *.
    destruct (body acc first w) as [[acc'|e'] w2]; [|discriminate].
    now apply IH.
Qed.

End Loop.

(** ** The run and the artifact sink *)

Section Run.

Variable env : Env.

(** Either entry point is the loop of its iterations over its sources. *)
Lemma run_unfold d cfg paths :
  run env d cfg paths
  = for_of (compile_file env (compile_of env d) cfg paths) []
      (sources_of env d paths).
Proof. destruct d; reflexivity. Qed.

(** Every artifact a run hands to the sink was synthesized from what the
    dialect's compiling function returned; there is at most one per source
    file, and exactly one when the run completes. *)
Lemma run_sink d cfg paths (P : Artifact.t -> Prop) :
  (forall sourceName out filepath filename compiler w0 w1,
      compile_of env d filepath filename cfg compiler w0 = (Ok out, w1) ->
      P (getArtifactFromYulOutput sourceName out)) ->
  forall w,
  exists new,
    saved (snd (run env d cfg paths w)) = (saved w ++ new)%list
    /\ Forall P new
    /\ (length new <= length (sources_of env d paths))%nat
    /\ (fst (run env d cfg paths w) = Ok tt ->
        length new = length (sources_of env d paths)).
Proof.
  intros HP w. rewrite run_unfold. apply for_of_sink.
  intros acc file w0.
  pose proof (compile_file_sink env d cfg paths acc file w0) as H.
  destruct (compile_file env (compile_of env d) cfg paths acc file w0)
    as [[acc'|e] w']; [|assumption].
  destruct H as (sourceName & out & filepath & compiler & w1 & w2
                 & Hrun & _ & Hsaved).
  eexists. split; [exact Hsaved|]. eapply HP, Hrun.
Qed.

End Run.

(** C8: every artifact that a run of either dialect hands to the sink has
    the format tag ["hh-sol-artifact-1"] and empty [linkReferences] and
    [deployedLinkReferences], beside the fields [contractName],
    [sourceName], [abi], [bytecode] and [deployedBytecode] of the record. *)
Theorem C8_artifact_shape (env : Env) (d : Dialect) (cfg : YulConfig)
    (paths : ProjectPathsConfig) (w : World) :
  exists new,
    saved (snd (run env d cfg paths w)) = (saved w ++ new)%list
    /\ Forall artifact_shape new.
Proof.
  destruct (run_sink env d cfg paths artifact_shape) with (w := w)
    as (new & Hsaved & Hshape & _).
  - intros. repeat split.
  - now exists new.
Qed.

(** C2 as the specification words it fails: of three sugared-dialect files
    of which the second does not parse, the third, which compiles when it
    is taken alone, is never compiled; the run ends with the second file's
    error and the sink holds the first file's artifact only. *)
Lemma C2_counterexample :
  sources_of Project.env Yulp Project.paths
  = ["/proj/contracts/A.yulp"; "/proj/contracts/Bad.yulp";
     "/proj/contracts/C.yulp"]
  /\ map Artifact.sourceName
       (saved (snd (for_of
                      (compile_file Project.env (compile_of Project.env Yulp)
                         Project.config Project.paths)
                      [] ["/proj/contracts/C.yulp"] empty_world)))
     = ["contracts/C.yulp"]
  /\ fst (compileYulp Project.env Project.config Project.paths empty_world)
     = Throw (Js.Thrown "Error" "Syntax error")
  /\ map Artifact.sourceName
       (saved (snd (compileYulp Project.env Project.config Project.paths
                      empty_world)))
     = ["contracts/A.yulp"]
  /\ length
       (compilations
          (snd (compileYulp Project.env Project.config Project.paths
                  empty_world)))
     = 1%nat.
Proof. repeat split. Qed.

(** ** Selecting the contract object *)


(** ** The compiler input *)

(** C4: the compiling function of either dialect calls the compiler once,
    with the descriptor of the specification built on the file's
    base-dialect text and the caller's [yulDetails]; its [sources] map has
    the one entry ["Target.yul"], whose content is that text. *)
Theorem C4_compiler_input (env : Env) (d : Dialect)
    (filepath filename : string) (cfg : YulConfig) (compiler : ICompiler)
    (w : World) (text : string) :
  base_dialect_text env d filepath = Ok text ->
  let input := compiler_input_descriptor text (yulDetails cfg) in
  compilations (snd (compile_of env d filepath filename cfg compiler w))
  = (compilations w ++ [(compiler, input)])%list
  /\ keys_of (get input "sources") = ["Target.yul"]
  /\ get (get (get input "sources") "Target.yul") "content" = Js.Str text
  /\ get (get (get (get input "settings") "optimizer") "details") "yulDetails"
     = yulDetails cfg.
Proof.
  intros Htext input. split; [|repeat split].
  pose proof (compile_of_outcome env d filepath filename cfg compiler w text
                Htext) as H.
  cbv zeta in H. fold input in H.
  destruct (compiler_compile env compiler input) as [output|];
    [|now rewrite H].
  destruct (Output.errors output) as [ds|]; [|now rewrite H].
  destruct (first_contract_object output) as [contract|].
  - destruct (Output.evm contract) as [e|]; [|now rewrite H].
    destruct H as (out & -> & _). reflexivity.
  - destruct H as (what & ->). reflexivity.
Qed.

Lemma C4_compiler_input_witness :
  compilations
    (snd (compile_of Project.env Yulp "contracts/A.yulp"
            "/proj/contracts/A.yulp" Project.config
            (NativeCompiler "/bin/solc") empty_world))
  = [(NativeCompiler "/bin/solc",
      compiler_input_descriptor "object"
        (Js.Obj [("stackAllocation", Js.Bool true)]))].
Proof.
  apply (C4_compiler_input Project.env Yulp "contracts/A.yulp"
           "/proj/contracts/A.yulp" Project.config
           (NativeCompiler "/bin/solc") empty_world "object").
  reflexivity.
Defined.

(** ** Bytecode *)

Lemma prefix_0x (payload : string) :
  String.prefix "0x" ("0x" ++ payload) = true.
Proof.
  apply String.prefix_correct. cbn [String.length append].
  cbn [String.substring]. now rewrite substring_0_0.
Qed.

(** C5: in every artifact synthesized from what a compiling function of
    either dialect returned, [bytecode] is ["0x"] followed by the
    executable-code payload of the selected contract object and
    [deployedBytecode] is ["0x"] followed by its runtime payload: exactly
    ["0x"] when the backend reported no runtime code object. *)
Theorem C5_bytecode_prefixed (env : Env) (d : Dialect)
    (filepath filename : string) (cfg : YulConfig) (compiler : ICompiler)
    (w w' : World) (out : Compiled.t) (sourceName : string) :
  compile_of env d filepath filename cfg compiler w = (Ok out, w') ->
  let a := getArtifactFromYulOutput sourceName out in
  exists text output contract e,
    base_dialect_text env d filepath = Ok text
    /\ compiler_compile env compiler
         (compiler_input_descriptor text (yulDetails cfg)) = Ok output
    /\ first_contract_object output = Some contract
    /\ Output.evm contract = Some e
    /\ Artifact.bytecode a = "0x" ++ Output.object (Output.bytecode e)
    /\ Artifact.deployedBytecode a = "0x" ++ runtime_payload e
    /\ (Output.deployedBytecode e = None -> Artifact.deployedBytecode a = "0x")
    /\ String.prefix "0x" (Artifact.bytecode a) = true
    /\ String.prefix "0x" (Artifact.deployedBytecode a) = true.
Proof.
  intros Hrun a.
  destruct (compile_of_inversion env d filepath filename cfg compiler w out w'
              Hrun)
    as (text & output & ds & contract & e & Htext & Hout & _ & Hfirst & He
        & _ & Hb & Hd & _).
  exists text, output, contract, e. subst a. cbn.
  repeat split; try assumption.
  - intros Hnone. rewrite Hd. unfold runtime_payload. now rewrite Hnone.
  - rewrite Hb. apply prefix_0x.
  - rewrite Hd. apply prefix_0x.
Qed.

Lemma C5_bytecode_prefixed_witness :
  exists text output contract e,
    base_dialect_text Project.env Yul "contracts/A.yul" = Ok text
    /\ compiler_compile Project.env (NativeCompiler "/bin/solc")
         (compiler_input_descriptor text (yulDetails Project.config))
       = Ok output
    /\ first_contract_object output = Some contract
    /\ Output.evm contract = Some e
    /\ "0x600a600d" = "0x" ++ Output.object (Output.bytecode e)
    /\ "0xfe" = "0x" ++ runtime_payload e
    /\ (Output.deployedBytecode e = None -> "0xfe" = "0x")
    /\ String.prefix "0x" "0x600a600d" = true
    /\ String.prefix "0x" "0xfe" = true.
Proof.
  apply (C5_bytecode_prefixed Project.env Yul "contracts/A.yul"
           "/proj/contracts/A.yul" Project.config (NativeCompiler "/bin/solc")
           empty_world
           (snd (compile_of Project.env Yul "contracts/A.yul"
                   "/proj/contracts/A.yul" Project.config
                   (NativeCompiler "/bin/solc") empty_world))
           {| Compiled._format := "hh-sol-artifact-1";
              Compiled.sourceName := "/proj/contracts/A.yul";
              Compiled.abi := [];
              Compiled.bytecode := "0x600a600d";
              Compiled.deployedBytecode := "0xfe";
              Compiled.functionDebugData := Some Project.debug |}
           "contracts/A.yul").
  reflexivity.
Defined.

(** The same at the sink: both strings of every artifact a run hands over
    start with ["0x"]. *)
Lemma sink_bytecode_prefixed (env : Env) (d : Dialect) (cfg : YulConfig)
    (paths : ProjectPathsConfig) (w : World) :
  exists new,
    saved (snd (run env d cfg paths w)) = (saved w ++ new)%list
    /\ Forall (fun a => String.prefix "0x" (Artifact.bytecode a) = true
                        /\ String.prefix "0x" (Artifact.deployedBytecode a)
                           = true) new.
Proof.
  destruct (run_sink env d cfg paths
              (fun a => String.prefix "0x" (Artifact.bytecode a) = true
                        /\ String.prefix "0x" (Artifact.deployedBytecode a)
                           = true)) with (w := w)
    as (new & Hsaved & Hall & _).
  - intros sourceName out filepath filename compiler w0 w1 Hrun.
    destruct (compile_of_inversion env d filepath filename cfg compiler w0 out
                w1 Hrun)
      as (_ & _ & _ & _ & e & _ & _ & _ & _ & _ & _ & Hb & Hd & _).
    cbn. rewrite Hb, Hd. split; apply prefix_0x.
  - now exists new.
Qed.

(** ** Diagnostics *)

(** C7: reporting the diagnostics of one compiler invocation returns
    without throwing, writing one line per entry: a warning for an entry
    of severity ["warning"] and an error for every other entry.  Whatever
    the diagnostics are, when the backend's answer has a usable first
    contract object the file's iteration completes and hands its artifact
    to the sink. *)
Theorem C7_diagnostics_do_not_stop (env : Env) (d : Dialect)
    (cfg : YulConfig) (paths : ProjectPathsConfig)
    (acc : list (Artifact.t * list string)) (file : string) (w : World)
    (ds : list Output.Diagnostic) (solcBuild : SolcBuild) (text : string)
    (output : Output.t) (contract : Output.Contract) (e : Output.Evm)
    (sourceName : string) :
  run_get_solc_build env true (version cfg) = Ok solcBuild ->
  base_dialect_text env d (path_relative env (process_cwd env) file)
  = Ok text ->
  compiler_compile env (compiler_of solcBuild)
    (compiler_input_descriptor text (yulDetails cfg)) = Ok output ->
  Output.errors output = Some ds ->
  first_contract_object output = Some contract ->
  Output.evm contract = Some e ->
  localPathToSourceName env (root paths) file = Ok sourceName ->
  (forall w0,
      checkCompilationErrors file (Some ds) w0
      = (Ok tt, logged (map (report file) ds) w0))
  /\ (forall error,
         (Output.severity error = "warning" ->
          exists text, report file error = Warn text)
         /\ (Output.severity error <> "warning" ->
             exists text, report file error = Error text))
  /\ exists acc' w' a,
       compile_file env (compile_of env d) cfg paths acc file w = (Ok acc', w')
       /\ saved w' = (saved w ++ [a])%list
       /\ Artifact.sourceName a = sourceName
       /\ Artifact.bytecode a = "0x" ++ Output.object (Output.bytecode e)
       /\ console w'
          = (console w
             ++ Log ("Compiling " ++ path_relative env (process_cwd env) file
                     ++ "...")
             :: map (report file) ds)%list.
Proof.
  intros Hbuild Htext Hout Hds Hfirst He Hname. split; [|split].
  - intros w0. unfold checkCompilationErrors, defined, bind, ret.
    apply report_all_run.
  - intros error. unfold report. split.
    + intros ->. cbn. eexists. reflexivity.
    + intros Hne. apply String.eqb_neq in Hne. rewrite Hne. cbn.
      eexists. reflexivity.
  - rewrite compile_file_outcome. cbv zeta. rewrite Hbuild.
    pose proof (compile_of_outcome env d
                  (path_relative env (process_cwd env) file) file cfg
                  (compiler_of solcBuild)
                  (logged [Log ("Compiling "
                                ++ path_relative env (process_cwd env) file
                                ++ "...")] w)
                  text Htext) as H.
    cbv zeta in H. rewrite Hout, Hds, Hfirst, He in H.
    destruct H as (out & -> & Hb & _). rewrite Hname.
    do 2 eexists. exists (getArtifactFromYulOutput sourceName out).
    split; [reflexivity|]. cbn [saved console registered sunk logged called].
    rewrite <- app_assoc. repeat split. exact Hb.
Qed.

Lemma C7_diagnostics_do_not_stop_witness :
  exists acc' w' a,
    compile_file Project.env (compile_of Project.env Yul) Project.config
      Project.paths [] "/proj/contracts/A.yul" empty_world = (Ok acc', w')
    /\ saved w' = [a]
    /\ Artifact.sourceName a = "contracts/A.yul"
    /\ Artifact.bytecode a = "0x600a600d"
    /\ console w'
       = Log "Compiling contracts/A.yul..."
         :: map (report "/proj/contracts/A.yul") Project.diagnostics.
Proof.
  refine (proj2 (proj2 (C7_diagnostics_do_not_stop Project.env Yul
                          Project.config Project.paths []
                          "/proj/contracts/A.yul" empty_world
                          Project.diagnostics
                          {| isSolcJs := false; compilerPath := "/bin/solc" |}
                          "object" Project.output Project.contract
                          Project.code "contracts/A.yul" _ _ _ _ _ _ _)));
    reflexivity.
Defined.

(** ** ABI and debug data *)

(** What [_compileYulp] returns carries one fragment for each declared
    signature, then one for each declared topic: the raw text without its
    first 4, respectively 6, characters and without its last one. *)
Lemma _compileYulp_abi (env : Env) (filepath filename : string)
    (cfg : YulConfig) (compiler : ICompiler) (w w' : World)
    (out : Compiled.t) :
  _compileYulp env filepath filename cfg compiler w = (Ok out, w') ->
  exists data source,
    readFileSync env filepath = Ok data
    /\ yulp_compile env data = Ok source
    /\ Compiled.abi out
       = (map (fun v => Js.slice (Yulp.abi v) 4 (-1))
            (Yulp.signatures source)
          ++ map (fun v => Js.slice (Yulp.abi v) 6 (-1))
               (Yulp.topics source))%list
    /\ length (Compiled.abi out)
       = (length (Yulp.signatures source) + length (Yulp.topics source))%nat.
Proof.
  unfold _compileYulp. unfold_steps. intros Hrun.
  destruct (readFileSync env filepath) as [data|] eqn:Hread; [|discriminate].
  destruct (yulp_compile env data) as [source|] eqn:Hsource; [|discriminate].
  exists data, source. split; [reflexivity|]. split; [exact Hsource|].
  revert Hrun. repeat case_outcome; try discriminate;
    intros [= <- _]; cbn [Compiled.abi];
    (split; [reflexivity|]); now rewrite length_app, !length_map.
Qed.

(** The artifact, though, is synthesized with an empty ABI whatever was
    compiled. *)
Lemma sink_abi_empty (env : Env) (d : Dialect) (cfg : YulConfig)
    (paths : ProjectPathsConfig) (w : World) :
  exists new,
    saved (snd (run env d cfg paths w)) = (saved w ++ new)%list
    /\ Forall (fun a => Artifact.abi a = []) new.
Proof.
  destruct (run_sink env d cfg paths (fun a => Artifact.abi a = []))
    with (w := w) as (new & Hsaved & Hall & _).
  - reflexivity.
  - now exists new.
Qed.

(** C1 on a sugared-dialect file that declares one signature and one
    topic and compiles: [_compileYulp] returns the two fragments, stripped
    of their framing, and the artifact handed to the sink for the file has
    none. *)
Theorem C1_abi_dropped_from_artifact :
  yulp_compile Project.env "object" = Ok (Project.source_of "object")
  /\ length (Yulp.signatures (Project.source_of "object")) = 1%nat
  /\ length (Yulp.topics (Project.source_of "object")) = 1%nat
  /\ (exists out w',
         _compileYulp Project.env "contracts/A.yulp" "/proj/contracts/A.yulp"
           Project.config (NativeCompiler "/bin/solc") empty_world
         = (Ok out, w')
         /\ Compiled.abi out = ["function add()"; "event Log(uint256)"])
  /\ (exists acc w' a,
         compile_file Project.env (_compileYulp Project.env) Project.config
           Project.paths [] "/proj/contracts/A.yulp" empty_world
         = (Ok acc, w')
         /\ saved w' = [a]
         /\ Artifact.sourceName a = "contracts/A.yulp"
         /\ Artifact.abi a = []
         /\ length (Artifact.abi a) <> 2%nat).
Proof.
  split; [reflexivity|]. split; [reflexivity|]. split; [reflexivity|].
  split.
  - do 2 eexists. split; [cbv; reflexivity|]. reflexivity.
  - do 3 eexists. split; [cbv; reflexivity|].
    repeat (split; [reflexivity|]). discriminate.
Qed.

(** For the base dialect the debug data of the selected contract object
    reaches the artifact as it is; for the sugared dialect the artifact has
    none. *)
Lemma sink_debug_data (env : Env) (d : Dialect) (filepath filename : string)
    (cfg : YulConfig) (compiler : ICompiler) (w w' : World)
    (out : Compiled.t) (sourceName : string) :
  compile_of env d filepath filename cfg compiler w = (Ok out, w') ->
  exists text output contract e,
    base_dialect_text env d filepath = Ok text
    /\ compiler_compile env compiler
         (compiler_input_descriptor text (yulDetails cfg)) = Ok output
    /\ first_contract_object output = Some contract
    /\ Output.evm contract = Some e
    /\ Artifact.functionDebugData (getArtifactFromYulOutput sourceName out)
       = match d with
         | Yul => debug_data e
         | Yulp => None
         end.
Proof.
  intros Hrun.
  destruct (compile_of_inversion env d filepath filename cfg compiler w out w'
              Hrun)
    as (text & output & ds & contract & e & Htext & Hout & _ & Hfirst & He
        & _ & _ & _ & Hdebug).
  exists text, output, contract, e. repeat split; assumption.
Qed.

(** C9 on a backend answer that includes function debug data for the
    selected contract object: the base-dialect artifact carries it, the
    sugared-dialect artifact of the same answer does not. *)
Theorem C9_debug_data_dropped_for_yulp :
  first_contract_object Project.output = Some Project.contract
  /\ Output.evm Project.contract = Some Project.code
  /\ debug_data Project.code = Some Project.debug
  /\ (exists acc w' a,
         compile_file Project.env (_compileYul Project.env) Project.config
           Project.paths [] "/proj/contracts/A.yul" empty_world
         = (Ok acc, w')
         /\ saved w' = [a]
         /\ Artifact.functionDebugData a = Some Project.debug)
  /\ (exists acc w' a,
         compile_file Project.env (_compileYulp Project.env) Project.config
           Project.paths [] "/proj/contracts/A.yulp" empty_world
         = (Ok acc, w')
         /\ saved w' = [a]
         /\ Artifact.functionDebugData a = None
         /\ Artifact.functionDebugData a <> debug_data Project.code).
Proof.
  split; [reflexivity|]. split; [reflexivity|]. split; [reflexivity|].
  split.
  - do 3 eexists. split; [cbv; reflexivity|]. split; reflexivity.
  - do 3 eexists. split; [cbv; reflexivity|].
    repeat (split; [reflexivity|]). discriminate.
Qed.

(** * Further properties of the code *)

(** ** Contract names and paths *)

Lemma has_slash_of_list (l : list ascii) :
  has_slash (string_of_list_ascii l) = existsb is_slash l.
Proof. induction l as [|c l IH]; cbn; [reflexivity | now rewrite IH]. Qed.

Lemma has_slash_to_list (s : string) :
  existsb is_slash (list_ascii_of_string s) = has_slash s.
Proof. induction s as [|c s IH]; cbn; [reflexivity | now rewrite IH]. Qed.

Lemma has_slash_append (a b : string) :
  has_slash (a ++ b) = has_slash a || has_slash b.
Proof.
  induction a as [|c a IH]; [reflexivity|].
  cbn [append has_slash]. now rewrite IH, orb_assoc.
Qed.

Lemma basename_scan_no_slash (l : list ascii) :
  forall m acc,
    existsb is_slash acc = false ->
    existsb is_slash (basename_scan l m acc) = false.
Proof.
  induction l as [|c l IH]; intros m acc Hacc; cbn [basename_scan].
  - exact Hacc.
  - destruct (Ascii.eqb c "/") eqn:Hc.
    + destruct m; [now apply IH | exact Hacc].
    + apply IH. cbn. unfold is_slash at 1. now rewrite Hc.
Qed.

Lemma basename_has_no_slash (path : string) : has_slash (basename path) = false.
Proof.
  unfold basename. rewrite has_slash_of_list. now apply basename_scan_no_slash.
Qed.

(** A component without separators is taken whole. *)
Lemma basename_scan_component (l : list ascii) :
  existsb is_slash l = false ->
  forall tail acc,
    basename_scan (l ++ tail) false acc
    = basename_scan tail false (rev l ++ acc).
Proof.
  induction l as [|c l IH]; intros Hl tail acc; [reflexivity|].
  cbn in Hl. apply orb_false_iff in Hl as [Hc Hl]. unfold is_slash in Hc.
  cbn [app basename_scan]. rewrite Hc, (IH Hl). cbn [rev].
  now rewrite <- app_assoc.
Qed.

Lemma basename_scan_last (l tail : list ascii) :
  l <> [] ->
  existsb is_slash l = false ->
  basename_scan (l ++ "/"%char :: tail) true [] = rev l.
Proof.
  intros Hne Hl. destruct l as [|c l]; [congruence|].
  cbn in Hl. apply orb_false_iff in Hl as [Hc Hl]. unfold is_slash in Hc.
  cbn [app basename_scan]. rewrite Hc, (basename_scan_component l Hl).
  cbn [basename_scan rev]. now rewrite Ascii.eqb_refl.
Qed.

Lemma basename_of_component (name : string) :
  has_slash name = false -> basename name = name.
Proof.
  intros H. unfold basename. destruct name as [|c name]; [reflexivity|].
  rewrite <- has_slash_to_list in H.
  set (l := list_ascii_of_string (String c name)) in *.
  assert (Hrev : existsb is_slash (rev l) = false).
  { rewrite <- H. apply eq_true_iff_eq. rewrite !existsb_exists.
    split; intros (x & Hin & Hx); exists x; split; auto;
      [now apply in_rev | now apply in_rev in Hin]. }
  assert (Hne : rev l <> []).
  { subst l. cbn. now destruct (rev (list_ascii_of_string name)). }
  destruct (rev l) as [|d r] eqn:Er; [congruence|].
  cbn in Hrev. apply orb_false_iff in Hrev as [Hd Hr]. unfold is_slash in Hd.
  cbn [basename_scan]. rewrite Hd.
  pose proof (basename_scan_component r Hr [] [d]) as Hscan.
  rewrite app_nil_r in Hscan. rewrite Hscan. cbn [basename_scan].
  change (rev r ++ [d])%list with (rev (d :: r)).
  rewrite <- Er, rev_involutive. subst l.
  apply string_of_list_ascii_of_string.
Qed.

Lemma basename_of_path (dir name : string) :
  name <> "" -> has_slash name = false ->
  basename (dir ++ String "/" name) = name.
Proof.
  intros Hne H. unfold basename.
  rewrite list_ascii_of_append. cbn [list_ascii_of_string].
  rewrite rev_app_distr. cbn [rev]. rewrite <- app_assoc. cbn [app].
  rewrite <- has_slash_to_list in H.
  rewrite basename_scan_last.
  - rewrite rev_involutive. apply string_of_list_ascii_of_string.
  - destruct name; [congruence|]. cbn.
    now destruct (rev (list_ascii_of_string name)).
  - rewrite <- H. apply eq_true_iff_eq. rewrite !existsb_exists.
    split; intros (x & Hin & Hx); exists x; split; auto;
      [now apply in_rev | now apply in_rev in Hin].
Qed.

Lemma has_dot_split (s : string) :
  has_dot s = true ->
  exists pre rest, s = pre ++ String "." rest /\ has_dot pre = false.
Proof.
  induction s as [|c s IH]; intros H; [discriminate|].
  cbn [has_dot] in H. destruct (Ascii.eqb_spec c ".") as [->|Hne].
  - now exists "", s.
  - cbn in H. destruct (IH H) as (pre & rest & -> & Hpre).
    exists (String c pre), rest. split; [reflexivity|].
    cbn [has_dot]. apply Ascii.eqb_neq in Hne. now rewrite Hne.
Qed.

Lemma prefix_append (pre rest : string) : String.prefix pre (pre ++ rest) = true.
Proof.
  induction pre as [|c pre IH]; [now destruct rest|].
  cbn [append String.prefix]. destruct (ascii_dec c c); [exact IH|congruence].
Qed.

(** X1: the contract name of any file is a prefix of the file's basename
    and holds neither a dot nor a path separator. *)
Theorem X1_contract_name_is_clean (file : string) :
  String.prefix (pathToContractName file) (basename file) = true
  /\ has_dot (pathToContractName file) = false
  /\ has_slash (pathToContractName file) = false.
Proof.
  unfold pathToContractName.
  pose proof (basename_has_no_slash file) as Hslash.
  destruct (has_dot (basename file)) eqn:Hdot.
  - destruct (has_dot_split _ Hdot) as (pre & rest & E & Hpre).
    rewrite E in *. rewrite (truncate_at_first_dot pre rest Hpre).
    rewrite has_slash_append in Hslash.
    apply orb_false_iff in Hslash as [Hs _].
    repeat split; [apply prefix_append | exact Hpre | exact Hs].
  - rewrite (truncate_no_dot _ Hdot).
    repeat split. apply (prefix_append "").
Qed.

(** X2: the contract name is decided by the last component of the path.
    A file [name] in any directory is named as [name] alone is, so two
    files of the same name in different directories get the same contract
    name. *)
Theorem X2_contract_name_ignores_directory (dir dir' name : string) :
  name <> "" ->
  has_slash name = false ->
  pathToContractName (dir ++ String "/" name) = pathToContractName name
  /\ pathToContractName (dir ++ String "/" name)
     = pathToContractName (dir' ++ String "/" name).
Proof.
  intros Hne H. unfold pathToContractName.
  now rewrite !basename_of_path, basename_of_component.
Qed.

Lemma X2_contract_name_ignores_directory_witness :
  pathToContractName "/proj/contracts/A.yul" = pathToContractName "A.yul"
  /\ pathToContractName "/proj/contracts/A.yul"
     = pathToContractName "/proj/contracts/lib/A.yul".
Proof.
  apply (X2_contract_name_ignores_directory "/proj/contracts"
           "/proj/contracts/lib" "A.yul").
  - discriminate.
  - reflexivity.
Defined.

(** ** Source discovery *)

Lemma replace_backslashes_clean (s : string) :
  has_backslash (replace_backslashes s) = false.
Proof.
  induction s as [|c s IH]; [reflexivity|].
  cbn [replace_backslashes has_backslash]. rewrite IH, orb_false_r.
  destruct (Ascii.eqb c (ascii_of_nat 92)) eqn:Hc; [reflexivity | exact Hc].
Qed.

Lemma replace_backslashes_length (s : string) :
  String.length (replace_backslashes s) = String.length s.
Proof. induction s as [|c s IH]; cbn; [reflexivity | now rewrite IH]. Qed.

Lemma replace_backslashes_fixes (s : string) :
  replace_backslashes s = s <-> has_backslash s = false.
Proof.
  induction s as [|c s IH]; [now split|].
  cbn [replace_backslashes has_backslash].
  destruct (Ascii.eqb c (ascii_of_nat 92)) eqn:Hc; cbn [orb].
  - split; [|discriminate]. intros [= E _]. apply Ascii.eqb_eq in Hc.
    subst c. discriminate.
  - rewrite <- IH. split; [now intros [= E] | now intros ->].
Qed.

(** ** Completed runs *)

Lemma registrations_length (entries : list (Artifact.t * list string)) :
  forall acc,
    (2 * length (registrations acc entries)
     = 2 * length entries * length acc
       + length entries * (length entries + 1))%nat.
Proof.
  induction entries as [|entry rest IH]; intros acc; [reflexivity|].
  pose proof (IH (acc ++ [entry])%list) as H.
  cbn [registrations]. rewrite !length_app in *. cbn [length] in *. nia.
Qed.

Section Completing.

Variable env : Env.

Lemma compile_of_keeps_valid d filepath filename cfg compiler w :
  validArtifacts (snd (compile_of env d filepath filename cfg compiler w))
  = validArtifacts w.
Proof.
  destruct d; cbn [compile_of].
  - apply _compileYul_keeps_sink.
  - apply _compileYulp_keeps_sink.
Qed.

(** What an iteration that completes has done to the sink, to the
    accumulator and to the list of valid artifacts. *)
Lemma compile_file_completes d cfg paths acc file w acc' w' :
  compile_file env (compile_of env d) cfg paths acc file w = (Ok acc', w') ->
  exists sourceName out,
    localPathToSourceName env (root paths) file = Ok sourceName
    /\ acc' = (acc ++ [entry_of (getArtifactFromYulOutput sourceName out)])%list
    /\ saved w' = (saved w ++ [getArtifactFromYulOutput sourceName out])%list
    /\ validArtifacts w' = (validArtifacts w ++ acc')%list.
Proof.
  rewrite compile_file_outcome. cbv zeta.
  destruct (run_get_solc_build env true (version cfg)) as [solcBuild|];
    [|discriminate].
  set (cwdPath := path_relative env (process_cwd env) file).
  set (w0 := logged _ w).
  pose proof (compile_of_keeps_sink env d cwdPath file cfg
                (compiler_of solcBuild) w0) as Hsaved.
  pose proof (compile_of_keeps_valid d cwdPath file cfg
                (compiler_of solcBuild) w0) as Hvalid.
  destruct (compile_of env d cwdPath file cfg (compiler_of solcBuild) w0)
    as [[out|] w1]; [|discriminate].
  cbn [snd] in Hsaved, Hvalid.
  destruct (localPathToSourceName env (root paths) file) as [sourceName|];
    [|discriminate].
  intros [= <- <-]. exists sourceName, out. cbn.
  rewrite Hsaved, Hvalid. repeat split.
Qed.

(** The artifacts of a completed loop: one for each file, in the order of
    the files, each under the source name of its file. *)
Lemma loop_completes d cfg paths (files : list string) :
  forall acc w w',
    for_of (compile_file env (compile_of env d) cfg paths) acc files w
    = (Ok tt, w') ->
    exists new,
      saved w' = (saved w ++ new)%list
      /\ validArtifacts w'
         = (validArtifacts w ++ registrations acc (map entry_of new))%list
      /\ Forall2
           (fun file a =>
              localPathToSourceName env (root paths) file
              = Ok (Artifact.sourceName a)
              /\ Artifact.contractName a
                 = pathToContractName (Artifact.sourceName a))
           files new.
Proof.
  induction files as [|file rest IH]; intros acc w w' Hrun.
  - cbn in Hrun. injection Hrun as <-. exists [].
    cbn. rewrite !app_nil_r. repeat split. constructor.
  - cbn [for_of] in Hrun. unfold bind in Hrun.
    destruct (compile_file env (compile_of env d) cfg paths acc file w)
      as [[acc'|e] w1] eqn:Hfile; [|discriminate].
    destruct (compile_file_completes d cfg paths acc file w acc' w1 Hfile)
      as (sourceName & out & Hname & -> & Hsaved & Hvalid).
    destruct (IH _ _ _ Hrun) as (new & Hsaved' & Hvalid' & Hall).
    exists (getArtifactFromYulOutput sourceName out :: new).
    rewrite Hsaved', Hsaved, Hvalid', Hvalid, <- !app_assoc.
    cbn [map registrations app]. rewrite <- !app_assoc.
    repeat split. constructor; [|exact Hall]. now split.
Qed.

End Completing.

(** X4: a run that completes has handed to the sink exactly one artifact
    for each discovered source file, in the order of discovery; each
    artifact stands under the source name that Hardhat gives its file and
    is named after that source name. *)
Theorem X4_completed_run_saves_every_file (env : Env) (d : Dialect)
    (cfg : YulConfig) (paths : ProjectPathsConfig) (w w' : World) :
  run env d cfg paths w = (Ok tt, w') ->
  exists new,
    saved w' = (saved w ++ new)%list
    /\ length new = length (sources_of env d paths)
    /\ Forall2
         (fun file a =>
            localPathToSourceName env (root paths) file
            = Ok (Artifact.sourceName a)
            /\ Artifact.contractName a
               = pathToContractName (Artifact.sourceName a))
         (sources_of env d paths) new.
Proof.
  rewrite run_unfold. intros Hrun.
  destruct (loop_completes env d cfg paths _ _ _ _ Hrun)
    as (new & Hsaved & _ & Hall).
  exists new. repeat split; [exact Hsaved | | exact Hall].
  symmetry. exact (Forall2_length Hall).
Qed.

Lemma X4_completed_run_saves_every_file_witness :
  exists new,
    saved (snd (run Library.env Yul Project.config Project.paths empty_world))
    = new
    /\ length new = 2%nat
    /\ Forall2
         (fun file a =>
            localPathToSourceName Library.env "/proj" file
            = Ok (Artifact.sourceName a)
            /\ Artifact.contractName a
               = pathToContractName (Artifact.sourceName a))
         ["/proj/contracts/A.yul"; "/proj/contracts/lib/A.yul"] new.
Proof.
  apply (X4_completed_run_saves_every_file Library.env Yul Project.config
           Project.paths empty_world
           (snd (run Library.env Yul Project.config Project.paths
                   empty_world))).
  reflexivity.
Defined.

(** X5: every iteration passes the whole accumulated list to
    [addValidArtifacts], so a completed run over [n] files has pushed the
    first file's entry [n] times, the second's [n - 1] times, and so on:
    [n * (n + 1) / 2] entries in all. *)
Theorem X5_valid_artifacts_are_registered_again (env : Env) (d : Dialect)
    (cfg : YulConfig) (paths : ProjectPathsConfig) (w w' : World) :
  run env d cfg paths w = (Ok tt, w') ->
  exists new,
    saved w' = (saved w ++ new)%list
    /\ validArtifacts w'
       = (validArtifacts w ++ registrations [] (map entry_of new))%list
    /\ (2 * length (validArtifacts w')
        = 2 * length (validArtifacts w)
          + length (sources_of env d paths)
            * (length (sources_of env d paths) + 1))%nat.
Proof.
  rewrite run_unfold. intros Hrun.
  destruct (loop_completes env d cfg paths _ _ _ _ Hrun)
    as (new & Hsaved & Hvalid & Hall).
  exists new. repeat split; [exact Hsaved | exact Hvalid |].
  rewrite Hvalid, length_app, (Forall2_length Hall).
  pose proof (registrations_length (map entry_of new) []) as Hlen.
  rewrite length_map in Hlen. cbn [length] in Hlen. lia.
Qed.

Lemma X5_valid_artifacts_are_registered_again_witness :
  exists new,
    saved (snd (run Library.env Yul Project.config Project.paths empty_world))
    = new
    /\ validArtifacts
         (snd (run Library.env Yul Project.config Project.paths empty_world))
       = registrations [] (map entry_of new)
    /\ (2 * length
              (validArtifacts
                 (snd (run Library.env Yul Project.config Project.paths
                         empty_world)))
        = 2 * 0 + 2 * (2 + 1))%nat.
Proof.
  apply (X5_valid_artifacts_are_registered_again Library.env Yul
           Project.config Project.paths empty_world
           (snd (run Library.env Yul Project.config Project.paths
                   empty_world))).
  reflexivity.
Defined.

(** ** Calls to the compiler *)

Section Growing.

Variable body :
  list (Artifact.t * list string) -> string
  -> M (list (Artifact.t * list string)).
Variable T : Type.
Variable record : World -> list T.
Variable P : T -> Prop.

(** A record of the world to which every iteration adds at most one entry,
    and exactly one when it completes, has at most one entry for each file
    at the end of the loop. *)
Lemma for_of_grows :
  (forall acc file w,
      exists new,
        record (snd (body acc file w)) = (record w ++ new)%list
        /\ Forall P new
        /\ (length new <= 1)%nat
        /\ (forall acc', fst (body acc file w) = Ok acc' ->
            length new = 1%nat)) ->
  forall files acc w,
  exists new,
    record (snd (for_of body acc files w)) = (record w ++ new)%list
    /\ Forall P new
    /\ (length new <= length files)%nat
    /\ (fst (for_of body acc files w) = Ok tt -> length new = length files).
Proof.
  intros Hbody. induction files as [|file rest IH]; intros acc w.
  - exists []. cbn. rewrite app_nil_r. repeat split; auto.
  - cbn [for_of]. unfold bind.
    destruct (Hbody acc file w) as (one & Hone & HP & Hle & Hlen).
    destruct (body acc file w) as [[acc'|e] w1]; cbn [fst snd] in *.
    + destruct (IH acc' w1) as (new & Hnew & HP' & Hle' & Hlen').
      exists (one ++ new)%list. rewrite Hnew, Hone, <- app_assoc.
      repeat split; [now apply Forall_app | |].
      * rewrite length_app. cbn [length]. lia.
      * intros H. rewrite length_app, (Hlen acc' eq_refl), (Hlen' H).
        reflexivity.
    + exists one. repeat split; auto; cbn [length]; [lia|discriminate].
Qed.

End Growing.

Section Calling.

Variable env : Env.

(** A compiling function calls the compiler at most once, and once when
    it returns; the input is the descriptor of some base-dialect text. *)
Lemma compile_of_calls d filepath filename cfg compiler w :
  exists new,
    compilations (snd (compile_of env d filepath filename cfg compiler w))
    = (compilations w ++ new)%list
    /\ Forall
         (fun call =>
            fst call = compiler
            /\ exists text,
                 base_dialect_text env d filepath = Ok text
                 /\ snd call
                    = compiler_input_descriptor text (yulDetails cfg))
         new
    /\ (length new <= 1)%nat
    /\ (forall out,
           fst (compile_of env d filepath filename cfg compiler w) = Ok out ->
           length new = 1%nat).
Proof.
  destruct (base_dialect_text env d filepath) as [text|e] eqn:Htext.
  - exists [(compiler, compiler_input_descriptor text (yulDetails cfg))].
    split; [|split; [|split; [cbn; lia | reflexivity]]].
    + pose proof (compile_of_outcome env d filepath filename cfg compiler w
                    text Htext) as H.
      cbv zeta in H.
      destruct (compiler_compile env compiler
                  (compiler_input_descriptor text (yulDetails cfg)))
        as [output|]; [|now rewrite H].
      destruct (Output.errors output) as [ds|]; [|now rewrite H].
      destruct (first_contract_object output) as [contract|].
      * destruct (Output.evm contract) as [e|]; [|now rewrite H].
        destruct H as (out & -> & _). reflexivity.
      * destruct H as (what & ->). reflexivity.
    + constructor; [|constructor]. split; [reflexivity|]. now exists text.
  - exists []. rewrite (compile_of_without_text env d filepath filename cfg
                          compiler w e Htext).
    cbn. rewrite app_nil_r. repeat split; auto. discriminate.
Qed.

Lemma compile_file_calls d cfg paths acc file w :
  exists new,
    compilations
      (snd (compile_file env (compile_of env d) cfg paths acc file w))
    = (compilations w ++ new)%list
    /\ Forall
         (fun call =>
            exists solcBuild text,
              run_get_solc_build env true (version cfg) = Ok solcBuild
              /\ fst call = compiler_of solcBuild
              /\ snd call = compiler_input_descriptor text (yulDetails cfg))
         new
    /\ (length new <= 1)%nat
    /\ (forall acc',
           fst (compile_file env (compile_of env d) cfg paths acc file w)
           = Ok acc' ->
           length new = 1%nat).
Proof.
  rewrite compile_file_outcome. cbv zeta.
  destruct (run_get_solc_build env true (version cfg)) as [solcBuild|]
    eqn:Hbuild.
  2:{ exists []. cbn. rewrite app_nil_r. repeat split; auto. discriminate. }
  set (cwdPath := path_relative env (process_cwd env) file).
  set (w0 := logged _ w).
  destruct (compile_of_calls d cwdPath file cfg (compiler_of solcBuild) w0)
    as (new & Hnew & HP & Hle & Hlen).
  exists new.
  destruct (compile_of env d cwdPath file cfg (compiler_of solcBuild) w0)
    as [[out|e] w1]; cbn [fst snd] in *.
  - destruct (localPathToSourceName env (root paths) file);
      cbn [fst snd compilations registered sunk]; rewrite Hnew;
      (split; [reflexivity|]);
      (split;
       [eapply Forall_impl; [|exact HP];
        intros call (Hc & text & _ & Hi); now exists solcBuild, text|]);
      (split; [exact Hle|]); intros; now apply (Hlen out).
  - rewrite Hnew. repeat split; auto; [|discriminate].
    eapply Forall_impl; [|exact HP].
    intros call (Hc & text & _ & Hi). now exists solcBuild, text.
Qed.

End Calling.


(** ** Where processing a file stops *)

(** X7: a backend answer that has no [errors] field makes the compiling
    function of either dialect throw a [TypeError] right after the call,
    whatever contract objects the answer holds: nothing is reported and
    nothing is read off the answer. *)
Theorem X7_answer_without_errors_throws (env : Env) (d : Dialect)
    (filepath filename : string) (cfg : YulConfig) (compiler : ICompiler)
    (w : World) (text : string) (output : Output.t) :
  base_dialect_text env d filepath = Ok text ->
  compiler_compile env compiler
    (compiler_input_descriptor text (yulDetails cfg)) = Ok output ->
  Output.errors output = None ->
  compile_of env d filepath filename cfg compiler w
  = (Throw (Js.TypeError "errors is not iterable"),
     called compiler (compiler_input_descriptor text (yulDetails cfg)) w).
Proof.
  intros Htext Hout Hnone.
  pose proof (compile_of_outcome env d filepath filename cfg compiler w text
                Htext) as H.
  cbv zeta in H. now rewrite Hout, Hnone in H.
Qed.

Lemma X7_answer_without_errors_throws_witness :
  first_contract_object Library.quiet_output = Some Project.contract
  /\ compile_of Library.env_quiet Yul "contracts/A.yul"
       "/proj/contracts/A.yul" Project.config (NativeCompiler "/bin/solc")
       empty_world
     = (Throw (Js.TypeError "errors is not iterable"),
        called (NativeCompiler "/bin/solc")
          (compiler_input_descriptor "object" (yulDetails Project.config))
          empty_world).
Proof.
  split; [reflexivity|].
  apply (X7_answer_without_errors_throws Library.env_quiet Yul
           "contracts/A.yul" "/proj/contracts/A.yul" Project.config
           (NativeCompiler "/bin/solc") empty_world "object"
           Library.quiet_output); reflexivity.
Defined.

(** X8: when the file cannot be read, or for the sugared dialect cannot be
    transpiled, the iteration throws that error after it has announced the
    file and obtained the compiler: the compiler is not called and the sink
    is not touched. *)
Theorem X8_unreadable_file_is_not_compiled (env : Env) (d : Dialect)
    (cfg : YulConfig) (paths : ProjectPathsConfig)
    (acc : list (Artifact.t * list string)) (file : string) (w : World)
    (solcBuild : SolcBuild) (e : Js.error) :
  run_get_solc_build env true (version cfg) = Ok solcBuild ->
  base_dialect_text env d (path_relative env (process_cwd env) file)
  = Throw e ->
  compile_file env (compile_of env d) cfg paths acc file w
  = (Throw e,
     logged [Log ("Compiling " ++ path_relative env (process_cwd env) file
                  ++ "...")] w).
Proof.
  intros Hbuild Htext. rewrite compile_file_outcome. cbv zeta.
  rewrite Hbuild.
  now rewrite (compile_of_without_text env d _ file cfg
                 (compiler_of solcBuild) _ e Htext).
Qed.

Lemma X8_unreadable_file_is_not_compiled_witness :
  compile_file Library.env_quiet (compile_of Library.env_quiet Yul)
    Project.config Project.paths [] "/proj/contracts/Gone.yul" empty_world
  = (Throw (Js.Thrown "Error" "ENOENT: no such file or directory"),
     logged [Log "Compiling contracts/Gone.yul..."] empty_world).
Proof.
  apply (X8_unreadable_file_is_not_compiled Library.env_quiet Yul
           Project.config Project.paths [] "/proj/contracts/Gone.yul"
           empty_world {| isSolcJs := false; compilerPath := "/bin/solc" |});
    reflexivity.
Defined.

(** X9: the compiler is asked for once per file, not once per run.  When
    no solc build of the configured version can be had, a run over no
    source file completes and leaves the world as it was, and a run over
    any source file throws the build's error at the first one, having
    written the line that announces it and nothing else. *)
Theorem X9_solc_build_is_needed_per_file (env : Env) (d : Dialect)
    (cfg : YulConfig) (paths : ProjectPathsConfig) (w : World)
    (e : Js.error) :
  run_get_solc_build env true (version cfg) = Throw e ->
  match sources_of env d paths with
  | [] => run env d cfg paths w = (Ok tt, w)
  | file :: _ =>
      run env d cfg paths w
      = (Throw e,
         logged [Log ("Compiling "
                      ++ path_relative env (process_cwd env) file ++ "...")]
           w)
  end.
Proof.
  intros Hbuild. rewrite run_unfold.
  destruct (sources_of env d paths) as [|file rest]; [reflexivity|].
  cbn [for_of]. unfold bind. rewrite compile_file_outcome. cbv zeta.
  now rewrite Hbuild.
Qed.

Lemma X9_solc_build_is_needed_per_file_witness :
  run Library.env_without_solc Yul Project.config Project.paths empty_world
  = (Throw (Js.Thrown "HardhatError" "HH501: download failed"),
     logged [Log "Compiling contracts/A.yul..."] empty_world).
Proof.
  apply (X9_solc_build_is_needed_per_file Library.env_without_solc Yul
           Project.config Project.paths empty_world
           (Js.Thrown "HardhatError" "HH501: download failed")).
  reflexivity.
Defined.

(** X10: when the backend's answer has diagnostics but no usable contract
    object (no [contracts], no entry for ["Target.yul"], no object under
    it, or a first object without [evm]), the compiling function reports
    every diagnostic first and then throws a [TypeError]. *)
Theorem X10_diagnostics_come_before_the_throw (env : Env) (d : Dialect)
    (filepath filename : string) (cfg : YulConfig) (compiler : ICompiler)
    (w : World) (text : string) (output : Output.t)
    (ds : list Output.Diagnostic) :
  base_dialect_text env d filepath = Ok text ->
  compiler_compile env compiler
    (compiler_input_descriptor text (yulDetails cfg)) = Ok output ->
  Output.errors output = Some ds ->
  (first_contract_object output = None
   \/ exists contract,
        first_contract_object output = Some contract
        /\ Output.evm contract = None) ->
  exists what,
    compile_of env d filepath filename cfg compiler w
    = (Throw (Js.TypeError what),
       logged (map (report filename) ds)
         (called compiler (compiler_input_descriptor text (yulDetails cfg))
            w)).
Proof.
  intros Htext Hout Hds Hnone.
  pose proof (compile_of_outcome env d filepath filename cfg compiler w text
                Htext) as H.
  cbv zeta in H. rewrite Hout, Hds in H.
  destruct Hnone as [Hnone | (contract & Hfirst & Hevm)].
  - now rewrite Hnone in H.
  - rewrite Hfirst, Hevm in H. now exists "bytecode".
Qed.

Lemma X10_diagnostics_come_before_the_throw_witness :
  exists what,
    compile_of Library.env_quiet Yul "contracts/Empty.yul"
      "/proj/contracts/Empty.yul" Project.config (NativeCompiler "/bin/solc")
      empty_world
    = (Throw (Js.TypeError what),
       logged (map (report "/proj/contracts/Empty.yul") Project.diagnostics)
         (called (NativeCompiler "/bin/solc")
            (compiler_input_descriptor "empty" (yulDetails Project.config))
            empty_world)).
Proof.
  apply (X10_diagnostics_come_before_the_throw Library.env_quiet Yul
           "contracts/Empty.yul" "/proj/contracts/Empty.yul" Project.config
           (NativeCompiler "/bin/solc") empty_world "empty"
           Library.failed_output Project.diagnostics);
    try reflexivity.
  left. reflexivity.
Defined.

(** X11: the source name is looked up after the file has been compiled.
    When that lookup throws, the compiler has been called and the
    diagnostics reported, but no artifact is handed to the sink and none is
    registered as valid. *)
Theorem X11_source_name_failure_saves_nothing (env : Env) (d : Dialect)
    (cfg : YulConfig) (paths : ProjectPathsConfig)
    (acc : list (Artifact.t * list string)) (file : string) (w w1 : World)
    (solcBuild : SolcBuild) (out : Compiled.t) (e : Js.error) :
  run_get_solc_build env true (version cfg) = Ok solcBuild ->
  compile_of env d (path_relative env (process_cwd env) file) file cfg
    (compiler_of solcBuild)
    (logged [Log ("Compiling " ++ path_relative env (process_cwd env) file
                  ++ "...")] w)
  = (Ok out, w1) ->
  localPathToSourceName env (root paths) file = Throw e ->
  compile_file env (compile_of env d) cfg paths acc file w = (Throw e, w1)
  /\ saved w1 = saved w
  /\ validArtifacts w1 = validArtifacts w
  /\ length (compilations w1) = S (length (compilations w)).
Proof.
  intros Hbuild Hrun Hname. split; [|split; [|split]].
  - rewrite compile_file_outcome. cbv zeta. now rewrite Hbuild, Hrun, Hname.
  - pose proof (compile_of_keeps_sink env d
                  (path_relative env (process_cwd env) file) file cfg
                  (compiler_of solcBuild)
                  (logged [Log ("Compiling "
                                ++ path_relative env (process_cwd env) file
                                ++ "...")] w)) as H.
    now rewrite Hrun in H.
  - pose proof (compile_of_keeps_valid env d
                  (path_relative env (process_cwd env) file) file cfg
                  (compiler_of solcBuild)
                  (logged [Log ("Compiling "
                                ++ path_relative env (process_cwd env) file
                                ++ "...")] w)) as H.
    now rewrite Hrun in H.
  - destruct (compile_of_calls env d
                (path_relative env (process_cwd env) file) file cfg
                (compiler_of solcBuild)
                (logged [Log ("Compiling "
                              ++ path_relative env (process_cwd env) file
                              ++ "...")] w))
      as (new & Hnew & _ & _ & Hlen).
    rewrite Hrun in Hnew, Hlen. cbn [fst snd] in Hnew, Hlen.
    rewrite Hnew, length_app, (Hlen out eq_refl). cbn. lia.
Qed.

Lemma X11_source_name_failure_saves_nothing_witness :
  fst (compile_file Library.env (compile_of Library.env Yul) Project.config
         Project.paths [] "/elsewhere/A.yul" empty_world)
  = Throw (Js.Thrown "HardhatError" "HH1005: file outside the project")
  /\ saved (snd (compile_file Library.env (compile_of Library.env Yul)
                   Project.config Project.paths [] "/elsewhere/A.yul"
                   empty_world))
     = [].
Proof.
  destruct (X11_source_name_failure_saves_nothing Library.env Yul
              Project.config Project.paths [] "/elsewhere/A.yul" empty_world
              (snd (compile_of Library.env Yul "here/A.yul"
                      "/elsewhere/A.yul" Project.config
                      (NativeCompiler "/bin/solc")
                      (logged [Log "Compiling here/A.yul..."] empty_world)))
              {| isSolcJs := false; compilerPath := "/bin/solc" |}
              {| Compiled._format := "hh-sol-artifact-1";
                 Compiled.sourceName := "/elsewhere/A.yul";
                 Compiled.abi := [];
                 Compiled.bytecode := "0x600a600d";
                 Compiled.deployedBytecode := "0xfe";
                 Compiled.functionDebugData := Some Project.debug |}
              (Js.Thrown "HardhatError" "HH1005: file outside the project"))
    as (Hrun & Hsaved & _); try reflexivity.
  rewrite Hrun. split; [reflexivity | exact Hsaved].
Defined.

(** ** ABI fragments of the sugared dialect *)

Lemma slice_of_framed_signature (text : string) :
  Js.slice (Yulp.abi (framed_signature text)) 4 (-1) = text.
Proof.
  exact (slice_strips_framing ("sig" ++ dquote) text dquote eq_refl).
Qed.

Lemma slice_of_framed_topic (text : string) :
  Js.slice (Yulp.abi (framed_topic text)) 6 (-1) = text.
Proof.
  exact (slice_strips_framing ("topic" ++ dquote) text dquote eq_refl).
Qed.

(** X12: for signatures and topics that yulp reports in their framing,
    [sig"..."] and [topic"..."], what [_compileYulp] returns lists the
    declarations themselves, the signatures first and the topics after
    them, each in yulp's order. *)
Theorem X12_fragments_lose_their_framing (env : Env)
    (filepath filename : string) (cfg : YulConfig) (compiler : ICompiler)
    (w w' : World) (out : Compiled.t) (data : string) (results : Js.value)
    (signatures topics : list string) :
  readFileSync env filepath = Ok data ->
  yulp_compile env data
  = Ok {| Yulp.results := results;
          Yulp.signatures := map framed_signature signatures;
          Yulp.topics := map framed_topic topics |} ->
  _compileYulp env filepath filename cfg compiler w = (Ok out, w') ->
  Compiled.abi out = (signatures ++ topics)%list.
Proof.
  intros Hread Hsource Hrun.
  destruct (_compileYulp_abi env filepath filename cfg compiler w w' out Hrun)
    as (data' & source & Hread' & Hsource' & -> & _).
  rewrite Hread in Hread'. injection Hread' as <-.
  rewrite Hsource in Hsource'. injection Hsource' as <-.
  cbn [Yulp.signatures Yulp.topics]. rewrite !map_map. f_equal.
  - rewrite <- (map_id signatures) at 2. apply map_ext.
    apply slice_of_framed_signature.
  - rewrite <- (map_id topics) at 2. apply map_ext.
    apply slice_of_framed_topic.
Qed.

Lemma X12_fragments_lose_their_framing_witness :
  Compiled.abi
    {| Compiled._format := "hh-sol-artifact-1";
       Compiled.sourceName := "/proj/contracts/A.yulp";
       Compiled.abi := ["function add()"; "event Log(uint256)"];
       Compiled.bytecode := "0x600a600d";
       Compiled.deployedBytecode := "0xfe";
       Compiled.functionDebugData := None |}
  = ["function add()"; "event Log(uint256)"].
Proof.
  apply (X12_fragments_lose_their_framing Project.env "contracts/A.yulp"
           "/proj/contracts/A.yulp" Project.config
           (NativeCompiler "/bin/solc") empty_world
           (snd (_compileYulp Project.env "contracts/A.yulp"
                   "/proj/contracts/A.yulp" Project.config
                   (NativeCompiler "/bin/solc") empty_world))
           _ "object" (Js.Str "object") ["function add()"]
           ["event Log(uint256)"]); reflexivity.
Defined.

Lemma substring_length (s : string) :
  forall n m,
    String.length (String.substring n m s)
    = Nat.min m (String.length s - n).
Proof.
  induction s as [|c s IH]; intros n m.
  - destruct n, m; cbn; try reflexivity; lia.
  - destruct n as [|n].
    + destruct m as [|m]; [reflexivity|].
      cbn [String.substring String.length]. rewrite IH. cbn. lia.
    + cbn [String.substring String.length]. rewrite IH. reflexivity.
Qed.

Lemma slice_to_last_length (s : string) (n : nat) :
  String.length (Js.slice s (Z.of_nat n) (-1)) = (String.length s - S n)%nat.
Proof.
  unfold Js.slice. rewrite substring_length.
  set (len := String.length s).
  replace (Z.of_nat n <? 0)%Z with false by (symmetry; apply Z.ltb_ge; lia).
  replace (-1 <? 0)%Z with true by reflexivity.
  lia.
Qed.

(** X13: whatever the raw text, cutting a fragment out of it does not
    throw and takes exactly 5 characters off a signature and 7 off a
    topic; a raw text that is no longer than that gives the empty
    fragment. *)
Theorem X13_fragment_length (v : Yulp.Fragment) :
  String.length (Js.slice (Yulp.abi v) 4 (-1))
  = (String.length (Yulp.abi v) - 5)%nat
  /\ String.length (Js.slice (Yulp.abi v) 6 (-1))
     = (String.length (Yulp.abi v) - 7)%nat
  /\ ((String.length (Yulp.abi v) <= 5)%nat <->
      Js.slice (Yulp.abi v) 4 (-1) = "")
  /\ ((String.length (Yulp.abi v) <= 7)%nat <->
      Js.slice (Yulp.abi v) 6 (-1) = "").
Proof.
  pose proof (slice_to_last_length (Yulp.abi v) 4) as H4.
  pose proof (slice_to_last_length (Yulp.abi v) 6) as H6.
  change (Z.of_nat 4) with 4 in H4. change (Z.of_nat 6) with 6 in H6.
  repeat split; try assumption.
  - intros Hle. destruct (Js.slice (Yulp.abi v) 4 (-1)); [reflexivity|].
    cbn [String.length] in H4. lia.
  - intros E. rewrite E in H4. cbn [String.length] in H4. lia.
  - intros Hle. destruct (Js.slice (Yulp.abi v) 6 (-1)); [reflexivity|].
    cbn [String.length] in H6. lia.
  - intros E. rewrite E in H6. cbn [String.length] in H6. lia.
Qed.

(** ** The base-dialect artifact *)

(** X14: the artifact that a base-dialect iteration hands to the sink,
    field by field: named after the source name, with an empty ABI, the
    two bytecodes of the first contract object behind ["0x"], empty link
    references, and the function debug data of the runtime code (none when
    there is no runtime code, whatever the creation code carries).  The
    entry pushed to the accumulator pairs it with its contract name. *)
Theorem X14_base_dialect_artifact (env : Env) (cfg : YulConfig)
    (paths : ProjectPathsConfig) (acc : list (Artifact.t * list string))
    (file : string) (w : World) (ds : list Output.Diagnostic)
    (solcBuild : SolcBuild) (text : string) (output : Output.t)
    (contract : Output.Contract) (e : Output.Evm) (sourceName : string) :
  run_get_solc_build env true (version cfg) = Ok solcBuild ->
  readFileSync env (path_relative env (process_cwd env) file) = Ok text ->
  compiler_compile env (compiler_of solcBuild)
    (compiler_input_descriptor text (yulDetails cfg)) = Ok output ->
  Output.errors output = Some ds ->
  first_contract_object output = Some contract ->
  Output.evm contract = Some e ->
  localPathToSourceName env (root paths) file = Ok sourceName ->
  let a :=
    {| Artifact._format := "hh-sol-artifact-1";
       Artifact.contractName := pathToContractName sourceName;
       Artifact.sourceName := sourceName;
       Artifact.abi := [];
       Artifact.bytecode := "0x" ++ Output.object (Output.bytecode e);
       Artifact.deployedBytecode :=
         match Output.deployedBytecode e with
         | Some deployed => "0x" ++ Output.object deployed
         | None => "0x"
         end;
       Artifact.linkReferences := [];
       Artifact.deployedLinkReferences := [];
       Artifact.functionDebugData :=
         match Output.deployedBytecode e with
         | Some deployed => Output.functionDebugData deployed
         | None => None
         end |} in
  exists w',
    compile_file env (_compileYul env) cfg paths acc file w
    = (Ok (acc ++ [(a, [pathToContractName sourceName])])%list, w')
    /\ saved w' = (saved w ++ [a])%list.
Proof.
  intros Hbuild Hread Hout Hds Hfirst He Hname a.
  change (_compileYul env) with (compile_of env Yul).
  rewrite compile_file_outcome. cbv zeta. rewrite Hbuild.
  pose proof (compile_of_outcome env Yul
                (path_relative env (process_cwd env) file) file cfg
                (compiler_of solcBuild)
                (logged [Log ("Compiling "
                              ++ path_relative env (process_cwd env) file
                              ++ "...")] w)
                text Hread) as H.
  cbv zeta in H. rewrite Hout, Hds, Hfirst, He in H.
  destruct H as (out & -> & Hb & Hd & Hf). rewrite Hname.
  assert (Ha : getArtifactFromYulOutput sourceName out = a).
  { unfold getArtifactFromYulOutput, a. rewrite Hb, Hd, Hf.
    unfold runtime_payload, debug_data.
    now destruct (Output.deployedBytecode e). }
  rewrite Ha. eexists. split; reflexivity.
Qed.

Lemma X14_base_dialect_artifact_witness :
  exists w',
    compile_file Library.env (_compileYul Library.env) Project.config
      Project.paths [] "/proj/contracts/lib/A.yul" empty_world
    = (Ok [({| Artifact._format := "hh-sol-artifact-1";
               Artifact.contractName := "A";
               Artifact.sourceName := "contracts/lib/A.yul";
               Artifact.abi := [];
               Artifact.bytecode := "0x600a600d";
               Artifact.deployedBytecode := "0xfe";
               Artifact.linkReferences := [];
               Artifact.deployedLinkReferences := [];
               Artifact.functionDebugData := Some Project.debug |},
            ["A"])],
       w')
    /\ saved w'
       = [ {| Artifact._format := "hh-sol-artifact-1";
              Artifact.contractName := "A";
              Artifact.sourceName := "contracts/lib/A.yul";
              Artifact.abi := [];
              Artifact.bytecode := "0x600a600d";
              Artifact.deployedBytecode := "0xfe";
              Artifact.linkReferences := [];
              Artifact.deployedLinkReferences := [];
              Artifact.functionDebugData := Some Project.debug |} ].
Proof.
  apply (X14_base_dialect_artifact Library.env Project.config Project.paths
           [] "/proj/contracts/lib/A.yul" empty_world Project.diagnostics
           {| isSolcJs := false; compilerPath := "/bin/solc" |} "object"
           Project.output Project.contract Project.code
           "contracts/lib/A.yul"); reflexivity.
Defined.

(** ** Where a run stops *)

Section Stopping.

Variable env : Env.

Lemma report_is_diagnostic filename error :
  is_diagnostic (report filename error).
Proof.
  unfold report.
  destruct (negb (Output.severity error =? "warning")%string); exact I.
Qed.

(** A compiling function writes nothing to the console but diagnostics. *)
Lemma compile_of_console d filepath filename cfg compiler w :
  exists lines,
    console (snd (compile_of env d filepath filename cfg compiler w))
    = (console w ++ lines)%list
    /\ Forall is_diagnostic lines.
Proof.
  assert (Hnone : forall w0 : World,
             exists lines, console w0 = (console w0 ++ lines)%list
                           /\ Forall is_diagnostic lines).
  { intros w0. exists []. now rewrite app_nil_r. }
  assert (Hreports : forall ds,
             Forall is_diagnostic (map (report filename) ds)).
  { intros ds. apply Forall_forall. intros line Hin.
    apply in_map_iff in Hin as (error & <- & _).
    apply report_is_diagnostic. }
  destruct (base_dialect_text env d filepath) as [text|e] eqn:Htext.
  2:{ rewrite (compile_of_without_text env d filepath filename cfg compiler w
                 e Htext). apply Hnone. }
  pose proof (compile_of_outcome env d filepath filename cfg compiler w text
                Htext) as H.
  cbv zeta in H.
  destruct (compiler_compile env compiler
              (compiler_input_descriptor text (yulDetails cfg)))
    as [output|]; [|rewrite H; apply (Hnone (called _ _ w))].
  destruct (Output.errors output) as [ds|];
    [|rewrite H; apply (Hnone (called _ _ w))].
  assert (Hds : exists lines,
             console (logged (map (report filename) ds)
                        (called compiler
                           (compiler_input_descriptor text (yulDetails cfg))
                           w))
             = (console w ++ lines)%list
             /\ Forall is_diagnostic lines).
  { exists (map (report filename) ds). split; [reflexivity | apply Hreports]. }
  destruct (first_contract_object output) as [contract|].
  - destruct (Output.evm contract) as [e|]; [|now rewrite H].
    destruct H as (out & -> & _). exact Hds.
  - destruct H as (what & ->). exact Hds.
Qed.

(** An iteration announces its file and after that writes diagnostics
    only. *)
Lemma compile_file_console d cfg paths acc file w :
  exists lines,
    console (snd (compile_file env (compile_of env d) cfg paths acc file w))
    = (console w
       ++ Log ("Compiling " ++ path_relative env (process_cwd env) file
               ++ "...") :: lines)%list
    /\ Forall is_diagnostic lines.
Proof.
  rewrite compile_file_outcome. cbv zeta.
  destruct (run_get_solc_build env true (version cfg)) as [solcBuild|].
  2:{ exists []. split; [reflexivity | constructor]. }
  set (cwdPath := path_relative env (process_cwd env) file).
  set (w0 := logged _ w).
  destruct (compile_of_console d cwdPath file cfg (compiler_of solcBuild) w0)
    as (lines & Hlines & Hall).
  exists lines. split; [|exact Hall].
  destruct (compile_of env d cwdPath file cfg (compiler_of solcBuild) w0)
    as [[out|e] w1]; cbn [snd] in Hlines.
  - destruct (localPathToSourceName env (root paths) file);
      cbn [snd console registered sunk]; rewrite Hlines; subst w0; cbn;
      now rewrite <- app_assoc.
  - cbn [snd]. rewrite Hlines. subst w0. cbn. now rewrite <- app_assoc.
Qed.

(** An iteration that throws has left the sink and the valid artifacts as
    they were, and has done the same whatever the accumulator held. *)
Lemma compile_file_throws d cfg paths acc file w e w' :
  compile_file env (compile_of env d) cfg paths acc file w = (Throw e, w') ->
  saved w' = saved w
  /\ validArtifacts w' = validArtifacts w
  /\ forall acc',
       compile_file env (compile_of env d) cfg paths acc' file w
       = (Throw e, w').
Proof.
  intros Hrun.
  assert (Hacc : forall acc',
             compile_file env (compile_of env d) cfg paths acc' file w
             = (Throw e, w')).
  { intros acc'. revert Hrun. rewrite !compile_file_outcome. cbv zeta.
    destruct (run_get_solc_build env true (version cfg)) as [solcBuild|];
      [|exact (fun H => H)].
    destruct (compile_of env d (path_relative env (process_cwd env) file)
                file cfg (compiler_of solcBuild)
                (logged [Log ("Compiling "
                              ++ path_relative env (process_cwd env) file
                              ++ "...")] w))
      as [[out|e1] w1]; [|exact (fun H => H)].
    destruct (localPathToSourceName env (root paths) file);
      [discriminate | exact (fun H => H)]. }
  split; [|split; [|exact Hacc]].
  - pose proof (compile_file_sink env d cfg paths acc file w) as H.
    now rewrite Hrun in H.
  - revert Hrun. rewrite compile_file_outcome. cbv zeta.
    destruct (run_get_solc_build env true (version cfg)) as [solcBuild|];
      [|now intros [= _ <-]].
    pose proof (compile_of_keeps_valid env d
                  (path_relative env (process_cwd env) file) file cfg
                  (compiler_of solcBuild)
                  (logged [Log ("Compiling "
                                ++ path_relative env (process_cwd env) file
                                ++ "...")] w)) as Hvalid.
    destruct (compile_of env d (path_relative env (process_cwd env) file)
                file cfg (compiler_of solcBuild)
                (logged [Log ("Compiling "
                              ++ path_relative env (process_cwd env) file
                              ++ "...")] w))
      as [[out|e1] w1]; cbn [snd] in Hvalid.
    + destruct (localPathToSourceName env (root paths) file);
        [discriminate | now intros [= _ <-]].
    + now intros [= _ <-].
Qed.

End Stopping.

Section Resuming.

Variable body :
  list (Artifact.t * list string) -> string
  -> M (list (Artifact.t * list string)).

(** After the files that complete, the loop goes on with the rest from
    the world and the accumulator they have left. *)
Lemma for_of_prefix :
  forall pre acc w w1,
    for_of body acc pre w = (Ok tt, w1) ->
    exists acc1,
      forall rest,
        for_of body acc (pre ++ rest) w = for_of body acc1 rest w1.
Proof.
  induction pre as [|first pre IH]; intros acc w w1 Hpre.
  - cbn in Hpre. injection Hpre as <-. now exists acc.
  - cbn [for_of] in Hpre. unfold bind in Hpre.
    destruct (body acc first w) as [[acc'|e'] w2] eqn:Hfirst; [|discriminate].
    destruct (IH acc' w2 w1 Hpre) as (acc1 & Hrest).
    exists acc1. intros rest. cbn [app for_of]. unfold bind.
    rewrite Hfirst. apply Hrest.
Qed.

End Resuming.

(** C2, amended: a failure while one file is processed ends the run inside
    that file's iteration.  When the files before it compile, the run
    throws that file's error and leaves the world that those files and the
    one broken iteration leave, whatever files follow: the sink and the
    valid artifacts hold what the files before put there, one artifact for
    each; the compiler has been called once for each of them and at most
    once more, for the failing file; and after the line that announces the
    failing file the console has diagnostics only, so that no file after
    it is announced, compiled or handed to the sink. *)
Theorem C2_failure_ends_the_run (env : Env) (d : Dialect) (cfg : YulConfig)
    (paths : ProjectPathsConfig) (pre : list string) (file : string)
    (post : list string) (e : Js.error) (w w1 : World) :
  sources_of env d paths = (pre ++ file :: post)%list ->
  for_of (compile_file env (compile_of env d) cfg paths) [] pre w
  = (Ok tt, w1) ->
  fst (compile_file env (compile_of env d) cfg paths [] file empty_world)
  = Throw e ->
  let stopped :=
    snd (compile_file env (compile_of env d) cfg paths [] file w1) in
  run env d cfg paths w = (Throw e, stopped)
  /\ saved stopped = saved w1
  /\ validArtifacts stopped = validArtifacts w1
  /\ length (saved stopped) = (length (saved w) + length pre)%nat
  /\ length (compilations w1) = (length (compilations w) + length pre)%nat
  /\ (exists calls,
         compilations stopped = (compilations w1 ++ calls)%list
         /\ (length calls <= 1)%nat)
  /\ (exists lines,
         console stopped
         = (console w1
            ++ Log ("Compiling " ++ path_relative env (process_cwd env) file
                    ++ "...") :: lines)%list
         /\ Forall is_diagnostic lines).
Proof.
  intros Hfiles Hpre Hfail stopped.
  destruct (for_of_prefix (compile_file env (compile_of env d) cfg paths)
              pre [] w w1 Hpre) as (acc1 & Hrest).
  pose proof (compile_file_fails_always env d cfg paths [] acc1 file
                empty_world w1 e Hfail) as Hfail1.
  destruct (compile_file env (compile_of env d) cfg paths acc1 file w1)
    as [[acc2|e2] w2] eqn:Hfile; cbn [fst] in Hfail1; [discriminate|].
  injection Hfail1 as ->.
  destruct (compile_file_throws env d cfg paths acc1 file w1 e w2 Hfile)
    as (Hsaved & Hvalid & Hacc).
  assert (Hstopped : stopped = w2) by (subst stopped; now rewrite (Hacc [])).
  rewrite Hstopped. split; [|split; [|split; [|split; [|split; [|split]]]]].
  - rewrite run_unfold, Hfiles, Hrest. cbn [for_of]. unfold bind.
    now rewrite Hfile.
  - exact Hsaved.
  - exact Hvalid.
  - rewrite Hsaved.
    destruct (for_of_sink (compile_file env (compile_of env d) cfg paths)
                (fun _ => True)) with (files := pre)
        (acc := @nil (Artifact.t * list string)) (w := w)
      as (new & Hnew & _ & _ & Hlen).
    + intros acc file0 w0.
      pose proof (compile_file_sink env d cfg paths acc file0 w0) as Hsink.
      destruct (compile_file env (compile_of env d) cfg paths acc file0 w0)
        as [[acc'|e'] w3]; [|assumption].
      destruct Hsink as (sn & out & _ & _ & _ & _ & _ & _ & Hs).
      eexists; split; [exact Hs|exact I].
    + rewrite Hpre in Hnew, Hlen. cbn [fst snd] in Hnew, Hlen.
      rewrite Hnew, length_app, Hlen; reflexivity.
  - destruct (for_of_grows (compile_file env (compile_of env d) cfg paths)
                _ compilations (fun _ => True)) with (files := pre)
        (acc := @nil (Artifact.t * list string)) (w := w)
      as (calls & Hcalls & _ & _ & Hlen).
    + intros acc file0 w0.
      destruct (compile_file_calls env d cfg paths acc file0 w0)
        as (new & Hnew & _ & Hle & Hone).
      exists new. repeat split; auto. apply Forall_forall. auto.
    + rewrite Hpre in Hcalls, Hlen. cbn [fst snd] in Hcalls, Hlen.
      rewrite Hcalls, length_app, Hlen; reflexivity.
  - destruct (compile_file_calls env d cfg paths acc1 file w1)
      as (calls & Hcalls & _ & Hle & _).
    rewrite Hfile in Hcalls. cbn [snd] in Hcalls. now exists calls.
  - pose proof (compile_file_console env d cfg paths acc1 file w1) as H.
    now rewrite Hfile in H.
Qed.

Lemma C2_failure_ends_the_run_witness :
  run Project.env Yulp Project.config Project.paths empty_world
  = (Throw (Js.Thrown "Error" "Syntax error"),
     snd (compile_file Project.env (compile_of Project.env Yulp)
            Project.config Project.paths [] "/proj/contracts/Bad.yulp"
            (snd (for_of
                    (compile_file Project.env (compile_of Project.env Yulp)
                       Project.config Project.paths)
                    [] ["/proj/contracts/A.yulp"] empty_world)))).
Proof.
  apply (C2_failure_ends_the_run Project.env Yulp Project.config
           Project.paths ["/proj/contracts/A.yulp"]
           "/proj/contracts/Bad.yulp" ["/proj/contracts/C.yulp"]
           (Js.Thrown "Error" "Syntax error") empty_world
           (snd (for_of
                   (compile_file Project.env (compile_of Project.env Yulp)
                      Project.config Project.paths)
                   [] ["/proj/contracts/A.yulp"] empty_world)));
    reflexivity.
Defined.




(** ** The glob pattern *)

Lemma replace_backslashes_append (a b : string) :
  replace_backslashes (a ++ b)
  = replace_backslashes a ++ replace_backslashes b.
Proof. induction a as [|c a IH]; cbn; [reflexivity | now rewrite IH]. Qed.

Lemma replace_backslashes_concat (parts : list string) :
  Forall (fun part => has_backslash part = false) parts ->
  replace_backslashes (String.concat backslash parts)
  = String.concat "/" parts.
Proof.
  induction 1 as [|part rest Hpart Hrest IH]; [reflexivity|].
  cbn [String.concat]. destruct rest as [|next rest].
  - now apply replace_backslashes_fixes.
  - rewrite !replace_backslashes_append, IH.
    rewrite (proj2 (replace_backslashes_fixes part) Hpart). reflexivity.
Qed.

(** X3: the source listings ask glob for the joined path with slashes in
    the place of its backslashes.  When [path.join] gives components
    joined by backslashes, as on Windows, the pattern is the same
    components joined by slashes; a joined path without backslashes (one
    component) is the pattern as it is. *)
Theorem X3_backslashes_become_slashes (env : Env)
    (paths : ProjectPathsConfig) (parts : list string) :
  Forall (fun part => has_backslash part = false) parts ->
  (path_join env [sources paths; "**"; "*.yul"]
   = String.concat backslash parts ->
   getYulSources env paths = glob_sync env (String.concat "/" parts))
  /\ (path_join env [sources paths; "**"; "*.yulp"]
      = String.concat backslash parts ->
      getYulpSources env paths = glob_sync env (String.concat "/" parts)).
Proof.
  intros Hparts. unfold getYulSources, getYulpSources.
  split; intros ->; now rewrite replace_backslashes_concat.
Qed.

Lemma X3_backslashes_become_slashes_witness :
  getYulSources Library.env_windows Library.windows_paths
  = glob_sync Library.env_windows "C:/proj/contracts/**/*.yul".
Proof.
  apply (X3_backslashes_become_slashes Library.env_windows
           Library.windows_paths ["C:"; "proj"; "contracts"; "**"; "*.yul"]).
  - repeat constructor.
  - reflexivity.
Defined.
